(** * NanoporeMet: coverage and classification pipeline

    A shallow embedding of [coverage.py] and [nanoporemet.py] and the
    properties of their data transformations.

    Conventions of the embedding.
    - Python [str] and [bytes] values are [string] (sequences of 8-bit
      characters); Python [int] is [Z].
    - Python [float] values are modelled by the rational numbers they
      denote ([Q]).  The arithmetic on them comes in two readings: the
      exact one ([truediv], [round_ndigits], [median]), which is enough
      for the order of the results and for what a call does to the
      files, and the binary64 one ([truediv64], [round_ndigits64],
      [median64]), which rounds every operation as the interpreter and
      numpy do and is the one the numeric results are stated in.
    - A directory is an association list of entries in enumeration order
      (the order [os.listdir], [os.scandir] and [glob] see).
    - A function works in one directory; the names it reads, writes and
      prints are relative to that directory.
    - A call either returns or raises; an exception thrown by a [raise]
      statement of the source is kept apart from one thrown by the Python
      runtime or a library operation. *)

From Stdlib Require Import List String Ascii ZArith QArith Qround Lia Lqa Bool.
From Stdlib Require Import Sorted Permutation.
Import ListNotations.
Open Scope string_scope.
Open Scope Z_scope.
Open Scope list_scope.

(* ================================================================== *)
(** * Python runtime *)

Module Py.

(** The exception classes that the modelled code can meet. *)
Inductive exn : Set :=
| FileNotFoundError
| IsADirectoryError
| NotADirectoryError
| ValueError
| IndexError
| KeyError
| ZeroDivisionError
| UnboundLocalError
| EmptyDataError
| ParserError
| OverflowError.

(** Result of a call.  [Raised e msg] is a [raise e(msg)] statement
    written in the source; [Failed e] is an exception thrown by an
    operation itself (a division, an index, [int()], [open()], ...). *)
Inductive outcome (A : Type) : Type :=
| Ok (a : A)
| Raised (e : exn) (msg : string)
| Failed (e : exn).

Arguments Ok {A} a.
Arguments Raised {A} e msg.
Arguments Failed {A} e.

Definition bind {A B : Type} (m : outcome A) (k : A -> outcome B) : outcome B :=
  match m with
  | Ok a => k a
  | Raised e msg => Raised e msg
  | Failed e => Failed e
  end.

Definition is_ok {A : Type} (m : outcome A) : bool :=
  match m with Ok _ => true | _ => false end.

(** An error produced by an explicit guard of the source. *)
Definition is_raised {A : Type} (m : outcome A) : bool :=
  match m with Raised _ _ => true | _ => false end.

(** ** Strings *)

(** [s.startswith(p)] *)
Definition startswith (s p : string) : bool := String.prefix p s.

(** [s.endswith(suf)]: some suffix of [s] is [suf]. *)
Fixpoint endswith (s suf : string) : bool :=
  (s =? suf)%string ||
  match s with
  | EmptyString => false
  | String _ t => endswith t suf
  end.

(** The ASCII characters for which [str.isspace] holds. *)
Definition is_space (c : ascii) : bool :=
  let n := nat_of_ascii c in
  ((9 <=? n) && (n <=? 13) || (28 <=? n) && (n <=? 32))%nat.

Fixpoint lstrip (s : string) : string :=
  match s with
  | String c t => if is_space c then lstrip t else s
  | EmptyString => EmptyString
  end.

Fixpoint rstrip (s : string) : string :=
  match s with
  | EmptyString => EmptyString
  | String c t =>
      match rstrip t with
      | EmptyString => if is_space c then EmptyString else String c EmptyString
      | t' => String c t'
      end
  end.

(** [s.strip()] *)
Definition strip (s : string) : string := rstrip (lstrip s).

(** [s.split(sep)] for a one-character separator; never empty. *)
Fixpoint split (sep : ascii) (s : string) : list string :=
  match s with
  | EmptyString => [EmptyString]
  | String c t =>
      if Ascii.eqb c sep then EmptyString :: split sep t
      else match split sep t with
           | h :: r => String c h :: r
           | [] => [String c EmptyString]
           end
  end.

Definition tab : ascii := Ascii.ascii_of_nat 9.
Definition newline : ascii := Ascii.ascii_of_nat 10.

Definition carriage_return : ascii := Ascii.ascii_of_nat 13.

(** What a file opened in text mode hands out for its content: a
    carriage return, alone or followed by a line feed, is read as one
    line feed. *)
Fixpoint universal_newlines (s : string) : string :=
  match s with
  | EmptyString => EmptyString
  | String c t =>
      if Ascii.eqb c carriage_return then
        String newline
          match t with
          | String c' t' =>
              if Ascii.eqb c' newline then universal_newlines t'
              else universal_newlines t
          | EmptyString => EmptyString
          end
      else String c (universal_newlines t)
  end.

(** The lines of a text, each with its line feed. *)
Fixpoint keepends (s : string) : list string :=
  match s with
  | EmptyString => []
  | String c t =>
      if Ascii.eqb c newline then String c EmptyString :: keepends t
      else match keepends t with
           | h :: r => String c h :: r
           | [] => [String c EmptyString]
           end
  end.

(** [handle.readlines()] on a file opened with mode ['r']: the lines of
    the content, each with its line end as a line feed. *)
Definition readlines (content : string) : list string :=
  keepends (universal_newlines content).

(** ** Numbers *)

Definition digit_val (c : ascii) : option Z :=
  let n := nat_of_ascii c in
  if ((48 <=? n) && (n <=? 57))%nat then Some (Z.of_nat (n - 48)) else None.

(** Decimal digits, single underscores allowed between digits. *)
Fixpoint int_digits (s : string) (acc : Z) (after_digit : bool) : option Z :=
  match s with
  | EmptyString => if after_digit then Some acc else None
  | String c t =>
      match digit_val c with
      | Some d => int_digits t (10 * acc + d) true
      | None =>
          if Ascii.eqb c "_" && after_digit then int_digits t acc false
          else None
      end
  end.

(** [int(s)] on a string: surrounding white space, an optional sign,
    decimal digits.  Anything else is a [ValueError]. *)
Definition int (s : string) : outcome Z :=
  let body :=
    match strip s with
    | String "+" t => int_digits t 0 false
    | String "-" t => option_map Z.opp (int_digits t 0 false)
    | t => int_digits t 0 false
    end in
  match body with
  | Some z => Ok z
  | None => Failed ValueError
  end.

(** [seq[i]] on a list. *)
Definition index {A : Type} (l : list A) (i : nat) : outcome A :=
  match nth_error l i with
  | Some a => Ok a
  | None => Failed IndexError
  end.

(** [sum(l)] of integers. *)
Definition sum (l : list Z) : Z := fold_left Z.add l 0.

(** [a / b] on integers: true division. *)
Definition truediv (a b : Z) : outcome Q :=
  if b =? 0 then Failed ZeroDivisionError
  else Ok (inject_Z a / inject_Z b)%Q.

(** [len(l)] *)
Definition len {A : Type} (l : list A) : Z := Z.of_nat (List.length l).

(** ** Rounding *)

(** A number as [round] returns it. *)
Inductive number : Type :=
| Int (z : Z)
| Float (q : Q)
| NotANumber.

(** The integer nearest to [q], ties to the even one. *)
Definition round_half_even (q : Q) : Z :=
  let f := Qfloor q in
  match Qcompare (q - inject_Z f) (1 # 2) with
  | Lt => f
  | Gt => f + 1
  | Eq => if Z.even f then f else f + 1
  end.

(** [round(v)] of a float; [None] is NaN, which has no integer. *)
Definition round_int (v : option Q) : outcome number :=
  match v with
  | Some q => Ok (Int (round_half_even q))
  | None => Failed ValueError
  end.

(** [round(v, ndigits)] of a float. *)
Definition round_ndigits (v : option Q) (ndigits : nat) : number :=
  match v with
  | Some q =>
      let scale := inject_Z (10 ^ Z.of_nat ndigits) in
      Float (inject_Z (round_half_even (q * scale)) / scale)%Q
  | None => NotANumber
  end.

(** ** Binary64

    The arithmetic of Python's [float] and of [numpy.float64].  A finite
    float is given by the rational number it denotes (one zero stands
    for both signed zeros). *)

(** The power of two [2 ^ e], for any integer [e]. *)
Definition two_power (e : Z) : Q :=
  match e with
  | Zneg p => 1 # (2 ^ p)
  | _ => inject_Z (2 ^ e)
  end.

(** For [0 < q]: the integer [e] with [2 ^ e <= q < 2 ^ (e + 1)]. *)
Definition ilog2 (q : Q) : Z :=
  let e0 := Z.log2 (Qnum q) - Z.log2 (Zpos (Qden q)) in
  if Qle_bool (two_power e0) q then e0 else e0 - 1.

(** Rounding of a positive number to 53 significant bits, with the
    smallest exponent that of the subnormal numbers; [None] when the
    rounded value is beyond the largest float. *)
Definition round_binary64_pos (q : Q) : option Q :=
  let e := Z.max (ilog2 q - 52) (- 1074) in
  let r := (inject_Z (round_half_even (q / two_power e)) * two_power e)%Q in
  if Qle_bool (two_power 1024) r then None else Some (Qred r).

(** The float nearest to [q], ties to the even significand; [None] on
    overflow. *)
Definition round_binary64 (q : Q) : option Q :=
  match Qcompare q 0 with
  | Eq => Some 0%Q
  | Gt => round_binary64_pos q
  | Lt => option_map Qopp (round_binary64_pos (- q))
  end.

(** [a / b] on integers, as the interpreter computes it: the float
    nearest to the quotient, [OverflowError] when there is none. *)
Definition truediv64 (a b : Z) : outcome Q :=
  if b =? 0 then Failed ZeroDivisionError
  else match round_binary64 (inject_Z a / inject_Z b) with
       | Some q => Ok q
       | None => Failed OverflowError
       end.

(** A [numpy.float64] value. *)
Inductive float64 : Type :=
| Finite (q : Q)
| Infinite (negative : bool)
| Nan.

(** The result of a numpy operation whose exact result is [q]. *)
Definition to_float (q : Q) : float64 :=
  match round_binary64 q with
  | Some r => Finite r
  | None => Infinite (negb (Qle_bool 0 q))
  end.

(** [x * c] and [x / c] for a finite positive [c]. *)
Definition float_mul (x : float64) (c : Q) : float64 :=
  match x with
  | Finite q => to_float (q * c)
  | _ => x
  end.

Definition float_div (x : float64) (c : Q) : float64 :=
  match x with
  | Finite q => to_float (q / c)
  | _ => x
  end.

(** [numpy.rint]: the nearest integer, ties to the even one. *)
Definition float_rint (x : float64) : float64 :=
  match x with
  | Finite q => Finite (inject_Z (round_half_even q))
  | _ => x
  end.

(** A number as [round] returns it for a [numpy.float64]. *)
Inductive number64 : Type :=
| Integer (z : Z)
| Floating (x : float64).


(** [round(x, ndigits)] of a [numpy.float64], for [0 < ndigits]: numpy
    multiplies by the power of ten, takes [rint] and divides again, each
    step a float operation. *)
Definition round_ndigits64 (x : float64) (ndigits : nat) : number64 :=
  let f := inject_Z (10 ^ Z.of_nat ndigits) in
  Floating (float_div (float_rint (float_mul x f)) f).

End Py.

Notation "x <- m ;; k" := (Py.bind m (fun x => k))
(at level 61, m at next level, right associativity).

(* ================================================================== *)
(** * Directories and effects *)

Module FS.
Import Py.

(** A file holds bytes; a directory holds named entries, in the order
    in which the operating system enumerates them. *)
#[warnings="-register-all"] Inductive node : Type :=
| File (content : string)
| Dir (entries : list (string * node)).

Definition dir : Type := list (string * node).

Definition is_dir (n : node) : bool :=
  match n with Dir _ => true | File _ => false end.

Fixpoint lookup (name : string) (d : dir) : option node :=
  match d with
  | [] => None
  | (n, v) :: rest => if (n =? name)%string then Some v else lookup name rest
  end.

(** [os.listdir] *)
Definition listdir (d : dir) : list string := map fst d.

(** [os.path.exists] on a name of the directory. *)
Definition path_exists (name : string) (d : dir) : bool :=
  match lookup name d with Some _ => true | None => false end.

(** Bind [name] to [v]: in place when the name exists, else as a new
    last entry. *)
Fixpoint put (name : string) (v : node) (d : dir) : dir :=
  match d with
  | [] => [(name, v)]
  | (n, w) :: rest =>
      if (n =? name)%string then (n, v) :: rest else (n, w) :: put name v rest
  end.

Definition unlink (name : string) (d : dir) : dir :=
  filter (fun e => negb (fst e =? name)%string) d.

(** Follow a relative path of components. *)
Fixpoint resolve (path : list string) (d : dir) : option node :=
  match path with
  | [] => Some (Dir d)
  | [name] => lookup name d
  | name :: rest =>
      match lookup name d with
      | Some (Dir sub) => resolve rest sub
      | _ => None
      end
  end.

(** A name that shell-style patterns do not match unless asked to. *)
Definition hidden (name : string) : bool := startswith name ".".

(** [fnmatch] against [*suffix]. *)
Definition match_suffix (suffix name : string) : bool :=
  negb (hidden name) && endswith name suffix.

(** [glob.glob('**/*' + suffix, recursive=True)] from a directory: the
    matches of the directory itself, then those of every visible
    subdirectory, depth first, each in enumeration order.  A path is
    its list of components. *)
Fixpoint rglob_node (suffix : string) (n : node) : list (list string) :=
  match n with
  | File _ => []
  | Dir es =>
      map (fun e => [fst e]) (filter (fun e => match_suffix suffix (fst e)) es)
      ++ flat_map (fun e =>
                     let '(name, child) := e in
                     if hidden name then []
                     else map (cons name) (rglob_node suffix child)) es
  end.

Definition rglob (suffix : string) (d : dir) : list (list string) :=
  rglob_node suffix (Dir d).

(** [fnmatch] against [prefix*suffix]. *)
Definition match_affix (prefix suffix name : string) : bool :=
  startswith name prefix
  && endswith (substring (String.length prefix)
                         (String.length name - String.length prefix) name)
              suffix.

(** [glob.glob(prefix + '*' + suffix)] in a directory. *)
Definition glob_affix (prefix suffix : string) (d : dir) : list string :=
  filter (fun name => negb (hidden name && negb (hidden prefix))
                      && match_affix prefix suffix name)
         (listdir d).

(** What a run does to the outside, in order. *)
Inductive event : Type :=
| Print (line : string)
| Create (name : string)
| Write (name : string) (data : string)
| Remove (name : string)
| Run (command : string).

Definition is_write (e : event) : bool :=
  match e with
  | Create _ | Write _ _ | Remove _ => true
  | Print _ | Run _ => false
  end.

(** A computation in a directory: its result, the directory afterwards
    and the events it caused.  The directory and the events survive an
    exception. *)
Definition io (A : Type) : Type := dir -> outcome A * dir * list event.

Definition ret {A : Type} (a : A) : io A := fun d => (Ok a, d, []).

Definition fail {A : Type} (e : exn) : io A := fun d => (Failed e, d, []).

Definition bind {A B : Type} (m : io A) (k : A -> io B) : io B :=
  fun d =>
    match m d with
    | (Ok a, d1, ev1) =>
        let '(r, d2, ev2) := k a d1 in (r, d2, ev1 ++ ev2)
    | (Raised e msg, d1, ev1) => (Raised e msg, d1, ev1)
    | (Failed e, d1, ev1) => (Failed e, d1, ev1)
    end.

Definition lift {A : Type} (m : outcome A) : io A := fun d => (m, d, []).

Definition result {A : Type} (r : outcome A * dir * list event) : outcome A :=
  fst (fst r).
Definition files {A : Type} (r : outcome A * dir * list event) : dir :=
  snd (fst r).
Definition events {A : Type} (r : outcome A * dir * list event) : list event :=
  snd r.

(** [print(line)] *)
Definition print (line : string) : io unit := fun d => (Ok tt, d, [Print line]).

(** [os.path.exists(name)] *)
Definition exists_ (name : string) : io bool := fun d => (Ok (path_exists name d), d, []).

(** [open(name, 'wb')]: creates or truncates. *)
Definition open_wb (name : string) : io unit :=
  fun d =>
    match lookup name d with
    | Some (Dir _) => (Failed IsADirectoryError, d, [])
    | _ => (Ok tt, put name (File "") d, [Create name])
    end.

(** [handle.write(data)] on a file opened for writing. *)
Definition write (name data : string) : io unit :=
  fun d =>
    match lookup name d with
    | Some (File old) => (Ok tt, put name (File (old ++ data)%string) d, [Write name data])
    | _ => (Failed FileNotFoundError, d, [])
    end.

(** [open(path, 'rb').read()] *)
Definition read (path : list string) : io string :=
  fun d =>
    match resolve path d with
    | Some (File content) => (Ok content, d, [])
    | Some (Dir _) => (Failed IsADirectoryError, d, [])
    | None => (Failed FileNotFoundError, d, [])
    end.

(** [os.remove(name)] *)
Definition remove (name : string) : io unit :=
  fun d =>
    match lookup name d with
    | Some (File _) => (Ok tt, unlink name d, [Remove name])
    | Some (Dir _) => (Failed IsADirectoryError, d, [])
    | None => (Failed FileNotFoundError, d, [])
    end.

(** [for x in xs: body(x)] *)
Fixpoint for_each {A : Type} (xs : list A) (body : A -> io unit) : io unit :=
  match xs with
  | [] => ret tt
  | x0 :: rest => bind (body x0) (fun _ => for_each rest body)
  end.

(** Run a computation inside the subdirectory [name]. *)
Definition within {A : Type} (name : string) (m : io A) : io A :=
  fun d =>
    match lookup name d with
    | Some (Dir sub) =>
        let '(r, sub', ev) := m sub in (r, put name (Dir sub') d, ev)
    | Some (File _) => (Failed NotADirectoryError, d, [])
    | None => (Failed FileNotFoundError, d, [])
    end.

(** The paths a recursive search for [*suffix] is to find: a visible
    entry of the directory with a fitting name, or such a path inside a
    visible subdirectory. *)
Inductive found (suffix : string) : dir -> list string -> Prop :=
| found_here (d : dir) (name : string) (child : node) :
    In (name, child) d ->
    match_suffix suffix name = true ->
    found suffix d [name]
| found_below (d sub : dir) (name : string) (path : list string) :
    In (name, Dir sub) d ->
    hidden name = false ->
    found suffix sub path ->
    found suffix d (name :: path).

(** A computation that leaves the entry [name] of its directory alone. *)
Definition preserves {A : Type} (name : string) (m : io A) : Prop :=
  forall d, lookup name (files (m d)) = lookup name d.

End FS.

Notation "x <~ m ;; k" := (FS.bind m (fun x => k))
(at level 61, m at next level, right associativity).
Notation "m ;;; k" := (FS.bind m (fun _ => k))
(at level 61, right associativity).

(* ================================================================== *)
(** * The pieces of pandas that the pipeline uses

    Tables are kept as text cells: type inference, quoting and index
    labels play no part in what the pipeline does with them. *)

Module Pandas.
Import Py.

Inductive cell : Type :=
| Str (s : string)
| NaN.

Definition row : Type := list cell.

(** A table without header: its rows, each a list of cells. *)
Definition DataFrame : Type := list row.

Definition width (df : DataFrame) : nat :=
  fold_right (fun r w => Nat.max (List.length r) w) 0%nat df.

(** Missing columns of a row are NaN. *)
Definition pad (w : nat) (r : row) : row :=
  r ++ repeat NaN (w - List.length r).

(** [pd.concat(frames)]: the rows of all frames, in order, over the
    union of their columns; no frame at all is an error. *)
Definition concat (frames : list DataFrame) : outcome DataFrame :=
  match frames with
  | [] => Failed ValueError
  | _ :: _ =>
      let w := fold_right Nat.max 0%nat (map width frames) in
      Ok (map (pad w) (List.concat frames))
  end.

(** [df[0] = value] *)
Definition set_column0 (value : string) (df : DataFrame) : DataFrame :=
  map (fun r => Str value :: tl r) df.

Definition to_cell (field : string) : cell :=
  if (field =? "")%string then NaN else Str field.

(** [pd.read_csv(text, sep='\t', header=None)]: blank lines are skipped;
    the first line fixes the number of columns. *)
Definition read_csv (content : string) : outcome DataFrame :=
  let lines := filter (fun l => negb (l =? "")%string) (split newline content) in
  let rows := map (fun l => map to_cell (split tab l)) lines in
  match rows with
  | [] => Failed EmptyDataError
  | first :: _ =>
      let w := List.length first in
      if existsb (fun r => (w <? List.length r)%nat) rows then Failed ParserError
      else Ok (map (pad w) rows)
  end.

Definition of_cell (c : cell) : string :=
  match c with Str s => s | NaN => "" end.

(** [df.to_csv(sep='\t', header=False, index=False)] *)
Definition to_csv (df : DataFrame) : string :=
  String.concat ""
    (map (fun r => (String.concat (String tab "") (map of_cell r)
                    ++ String newline "")%string) df).

(** One read of the sequencing summary table. *)
Record ReadMetricRecord : Type := {
  mean_qscore_template : Q;
  sequence_length_template : Z;
  passes_filtering : bool
}.

Definition SummaryFrame : Type := list ReadMetricRecord.

(** [data[column_name]] for the numeric columns. *)
Definition column (data : SummaryFrame) (column_name : string) : outcome (list Q) :=
  if (column_name =? "mean_qscore_template")%string then
    Ok (map mean_qscore_template data)
  else if (column_name =? "sequence_length_template")%string then
    Ok (map (fun r => inject_Z (sequence_length_template r)) data)
  else Failed KeyError.

Fixpoint insert_sorted (v : Q) (l : list Q) : list Q :=
  match l with
  | [] => [v]
  | h :: t => if Qle_bool v h then v :: l else h :: insert_sorted v t
  end.

Definition sort_values (l : list Q) : list Q := fold_right insert_sorted [] l.

(** [series.median()]: NaN ([None]) for an empty series. *)
Definition median (values : list Q) : option Q :=
  match values with
  | [] => None
  | _ :: _ =>
      let s := sort_values values in
      let n := List.length s in
      if Nat.even n
      then Some ((nth (n / 2 - 1) s 0 + nth (n / 2) s 0) / 2)%Q
      else Some (nth (n / 2) s 0%Q)
  end.




End Pandas.

(* ================================================================== *)
(** * coverage.py *)

Module Coverage.
Import Py.

(** A directory listing, in enumeration order. *)
Definition listing := list string.

(** [find_reference_fasta], on the listing of the reference directory. *)
Definition find_reference_fasta (listdir : listing) : outcome string :=
  let reference_files :=
    filter (fun file => endswith file ".fasta" && negb (startswith file "._"))
           listdir in
  match reference_files with
  | [] =>
      Raised FileNotFoundError
        "No reference fasta file found in the specified directory."
  | first :: rest =>
      if (1 <? len reference_files) then
        Raised ValueError
          "Multiple reference fasta files found. Please ensure only one reference file is present."
      else Ok first
  end.

(** The [data] dictionary of [plot_coverage]. *)
Record depth_data : Type := { x : list Z; y : list Z }.

(** The body of the reading loop for one line: the columns of the line
    and the two values appended. *)
Definition read_line (line : string) : outcome (list string * Z * Z) :=
  let columns := split tab (strip line) in
  c1 <- index columns 1 ;;
  px <- int c1 ;;
  c2 <- index columns 2 ;;
  py <- int c2 ;;
  Ok (columns, px, py).

(** The reading loop: [data] after all lines, and the [columns] of the
    last line read (unbound when there is none). *)
Fixpoint read_lines (lines : list string) (data : depth_data)
         (columns : option (list string))
  : outcome (depth_data * option (list string)) :=
  match lines with
  | [] => Ok (data, columns)
  | line :: rest =>
      r <- read_line line ;;
      let '(cols, px, py) := r in
      read_lines rest {| x := x data ++ [px]; y := y data ++ [py] |} (Some cols)
  end.

(** What [plot_coverage] computes and hands to the renderer. *)
Record coverage_plot : Type := {
  horizontal_coverage : Q;
  vertical_coverage : Q;
  plot_x : list Z;
  plot_y : list Z;
  title_name : string;
  title_nt : Z
}.

(** [plot_coverage], on the lines of the [.coverage] file. *)
Definition plot_coverage (coverage_file : list string) : outcome coverage_plot :=
  r <- read_lines coverage_file {| x := []; y := [] |} None ;;
  let '(data, columns) := r in
  h <- truediv (sum (map (fun _ => 1) (filter (fun val => 0 <? val) (y data))))
               (len (y data)) ;;
  v <- truediv (sum (y data)) (len (y data)) ;;
  name <- match columns with
          | Some cols => index cols 0
          | None => Failed UnboundLocalError
          end ;;
  Ok {| horizontal_coverage := h;
        vertical_coverage := v;
        plot_x := x data;
        plot_y := y data;
        title_name := name;
        title_nt := len (x data) |}.

(** A name [find_reference_fasta] counts as a reference file. *)
Definition is_reference_name (file : string) : bool :=
  endswith file ".fasta" && negb (startswith file "._").

(** A line of the table carries this position and this depth. *)
Definition line_has (line : string) (row : Z * Z) : Prop :=
  exists columns, read_line line = Ok (columns, fst row, snd row).

(** Rows with at least one read mapped. *)
Definition covered (rows : list (Z * Z)) : list (Z * Z) :=
  filter (fun row => 0 <? snd row) rows.

(** Depths added up. *)
Definition total_depth (rows : list (Z * Z)) : Z :=
  fold_right Z.add 0 (map snd rows).

(** The text of a table line as the depth tool prints it: the reference
    name, the position and the depth as decimal numerals, tab-separated,
    with a line end.  A numeral is given by its digits. *)
Definition digit_char (d : nat) : ascii := ascii_of_nat (48 + d).

Fixpoint numeral (digits : list nat) : string :=
  match digits with
  | [] => EmptyString
  | d :: rest => String (digit_char d) (numeral rest)
  end.

Definition numeral_value (digits : list nat) : Z :=
  fold_left (fun acc d => 10 * acc + Z.of_nat d) digits 0.


(** A row of the depth tool's table: reference name, digits of the
    position, digits of the depth. *)
Definition table_row : Type := (string * list nat * list nat)%type.

Definition row_name (r : table_row) : string := fst (fst r).
Definition row_position (r : table_row) : Z := numeral_value (snd (fst r)).
Definition row_depth (r : table_row) : Z := numeral_value (snd r).

(** No character of the string is white space. *)
Fixpoint no_space (s : string) : bool :=
  match s with
  | EmptyString => true
  | String c t => negb (is_space c) && no_space t
  end.

(** [plot_coverage] with its two divisions as the interpreter carries
    them out, in binary64. *)
Definition plot_coverage64 (coverage_file : list string) : outcome coverage_plot :=
  r <- read_lines coverage_file {| x := []; y := [] |} None ;;
  let '(data, columns) := r in
  h <- truediv64 (sum (map (fun _ => 1) (filter (fun val => 0 <? val) (y data))))
                 (len (y data)) ;;
  v <- truediv64 (sum (y data)) (len (y data)) ;;
  name <- match columns with
          | Some cols => index cols 0
          | None => Failed UnboundLocalError
          end ;;
  Ok {| horizontal_coverage := h;
        vertical_coverage := v;
        plot_x := x data;
        plot_y := y data;
        title_name := name;
        title_nt := len (x data) |}.

(** The visible ASCII characters. *)
Definition is_graphic (c : ascii) : bool :=
  let n := nat_of_ascii c in ((33 <=? n) && (n <=? 126))%nat.

Fixpoint graphic (s : string) : bool :=
  match s with
  | EmptyString => true
  | String c t => is_graphic c && graphic t
  end.

(** A row as the depth tool prints it: a name of visible ASCII
    characters, not empty, and two decimal numerals of at least one and
    at most 4300 digits (the longest numeral [int()] converts). *)
Definition printed_row (r : table_row) : Prop :=
  row_name r <> ""
  /\ graphic (row_name r) = true
  /\ snd (fst r) <> [] /\ Forall (fun d => (d <= 9)%nat) (snd (fst r))
  /\ len (snd (fst r)) <= 4300
  /\ snd r <> [] /\ Forall (fun d => (d <= 9)%nat) (snd r)
  /\ len (snd r) <= 4300.

(** Blanks and tabs only. *)
Fixpoint blanks (s : string) : bool :=
  match s with
  | EmptyString => true
  | String c t => (Ascii.eqb c " " || Ascii.eqb c tab) && blanks t
  end.

(** A line of the table's text: the row as the depth tool prints it -
    name, position and depth, tab-separated - with its line feed;
    blanks and tabs before the name and after the depth are allowed
    for. *)
Definition text_row : Type := (string * table_row * string)%type.

Definition line_row (t : text_row) : table_row := snd (fst t).

Definition text_line (t : text_row) : string :=
  (fst (fst t)
   ++ (row_name (line_row t)
       ++ String tab (numeral (snd (fst (line_row t)))
                      ++ String tab (numeral (snd (line_row t)))))
   ++ (snd t ++ String newline ""))%string.

Definition printed_line (t : text_row) : Prop :=
  blanks (fst (fst t)) = true
  /\ printed_row (line_row t)
  /\ blanks (snd t) = true.

(** [concatenate_fastq], in the directory it changes to. *)
Definition concatenate_fastq : FS.io unit :=
  let concatenated_file := "concatenated.fastq" in
  found <~ FS.exists_ concatenated_file ;;
  if (found : bool) then
    FS.print "Using previously generated concatenated.fastq file."
  else
    fun d =>
      let all_fastq_files := FS.rglob ".fastq.gz" d in
      (FS.open_wb concatenated_file ;;;
       FS.for_each all_fastq_files
         (fun fastq_file =>
            data <~ FS.read fastq_file ;;
            FS.write concatenated_file data)) d.

End Coverage.

(* ================================================================== *)
(** * nanoporemet.py *)

Module NanoporeMet.
Import Py.
Import FS.
Import Pandas.

(** What [plot_histogram] draws on its axes. *)
Record histogram : Type := {
  hist_values : list Q;
  hist_bins : Z;
  hist_log : bool;
  hist_title : string;
  hist_xlabel : string;
  hist_ylabel : string;
  median_line : option Q;
  legend_median : number
}.

(** [plot_histogram] *)
Definition plot_histogram (data : SummaryFrame)
           (column_name title xlabel ylabel : string) (log_scale : bool)
  : outcome histogram :=
  values <- column data column_name ;;
  let median_value := median values in
  rounded_median <-
    (if (column_name =? "sequence_length_template")%string
     then round_int median_value
     else Ok (round_ndigits median_value 2)) ;;
  Ok {| hist_values := values;
        hist_bins := 100;
        hist_log := log_scale;
        hist_title := title;
        hist_xlabel := xlabel;
        hist_ylabel := ylabel;
        median_line := median_value;
        legend_median := rounded_median |}.



(** A row of a classification table: its label is column 0, the
    classifier's own columns follow. *)
Definition sampleLabel (r : row) : cell := hd NaN r.
Definition taxonFields (r : row) : row := tl r.

(** The report text that [run_kraken] writes back: every line of the
    classifier's report with the title and a tab in front. *)
Definition tagged_report (title text : string) : string :=
  String.concat ""
    (map (fun line => (title ++ String tab "" ++ line)%string) (readlines text)).

(** The command line handed to the classifier, names relative to the
    sample directory. *)
Record kraken_command : Type := {
  kraken_db : string;
  kraken_output : string;
  kraken_report : string;
  kraken_input : string
}.

(** The pages drawn before the first plot that raises, and that
    exception if there is one. *)
Fixpoint collect_pages (plots : list (outcome histogram)) (pages : list histogram)
  : list histogram * outcome unit :=
  match plots with
  | [] => (pages, Ok tt)
  | Ok h :: rest => collect_pages rest (pages ++ [h])
  | Raised e msg :: _ => (pages, Raised e msg)
  | Failed e :: _ => (pages, Failed e)
  end.

(** The test of [main] on an entry of [fastq_pass]: a directory with at
    least one entry. *)
Definition holds_entries (d : dir) (subdir : string) : bool :=
  match lookup subdir d with
  | Some (Dir (_ :: _)) => true
  | _ => false
  end.

Section Pipeline.

(** [pd.read_csv(path, sep='\t')] on the text of the summary table. *)
Variable parse_summary : string -> outcome SummaryFrame.

(** The document [PdfPages] writes for a list of pages. *)
Variable render_pdf : list histogram -> string.

(** The external classifier: whatever it does to the sample directory. *)
Variable kraken2 : kraken_command -> dir -> dir.

(** [with PdfPages(pdf_path) as pdf: ...]: the document is written when
    the block is left, also by an exception. *)
Definition save_pages (pdf_path : string) (plots : list (outcome histogram)) : io unit :=
  let '(pages, r) := collect_pages plots [] in
  open_wb pdf_path ;;;
  write pdf_path (render_pdf pages) ;;;
  lift r.

(** [generate_sequencing_summary_pdf], in the analysis directory. *)
Definition generate_sequencing_summary_pdf : io string :=
  let pdf_path := "sequencing_summary.pdf" in
  found <~ exists_ pdf_path ;;
  if (found : bool) then
    print "The sequencing_summary.pdf file has already been created." ;;;
    ret pdf_path
  else
    fun d =>
      let files := glob_affix "sequencing_summary_" ".txt" d in
      match files with
      | [] =>
          (print "The sequencing_summary.txt file is not available yet." ;;;
           ret pdf_path) d
      | file_path :: _ =>
          (content <~ read [file_path] ;;
           data <~ lift (parse_summary content) ;;
           let filtered_data := filter passes_filtering data in
           save_pages pdf_path
             [ plot_histogram data "mean_qscore_template"
                 "Mean Q score (all reads)" "Mean Q score" "Frequency" false;
               plot_histogram filtered_data "mean_qscore_template"
                 "Mean Q score (quality-filtered reads)" "Mean Q score"
                 "Frequency" false;
               plot_histogram data "sequence_length_template"
                 "Sequence length (all reads)" "Sequence length" "Frequency" true;
               plot_histogram filtered_data "sequence_length_template"
                 "Sequence length (quality-filtered reads)" "Sequence length"
                 "Frequency" true ] ;;;
           print ("Plots saved in " ++ pdf_path)%string ;;;
           ret pdf_path) d
      end.

(** Lines 96-99 of [run_kraken]: the combined-read file is opened for
    writing and the listed files are copied into it. *)
Definition run_kraken_concatenate (output_fastq : string) (fastq_files : list string)
  : io unit :=
  open_wb output_fastq ;;;
  for_each fastq_files
    (fun file =>
       data <~ read [file] ;;
       write output_fastq data).

(** [subprocess.run(kraken_command, shell=True)]; the exit status is not
    looked at. *)
Definition run_tool (command : kraken_command) : io unit :=
  fun d =>
    (Ok tt, kraken2 command d,
     [Run ("kraken2 --db " ++ kraken_db command
           ++ " --output " ++ kraken_output command
           ++ " --report " ++ kraken_report command
           ++ " " ++ kraken_input command)%string]).

(** [run_kraken], in the sample directory whose base name is [title]. *)
Definition run_kraken (title : string) (db : string) : io unit :=
  let output_fastq := "concatenated.fastq" in
  fun d =>
    let fastq_files := filter (fun file => endswith file ".fastq.gz") (listdir d) in
    match fastq_files with
    | _ :: _ =>
        (run_kraken_concatenate output_fastq fastq_files ;;;
         let output_kraken := (title ++ ".kreport.txt")%string in
         run_tool {| kraken_db := db;
                     kraken_output := "concatenated.kraken";
                     kraken_report := output_kraken;
                     kraken_input := output_fastq |} ;;;
         text <~ read [output_kraken] ;;
         let lines :=
           map (fun line => (title ++ String tab "" ++ line)%string)
               (readlines text) in
         open_wb output_kraken ;;;
         write output_kraken (String.concat "" lines) ;;;
         remove output_fastq) d
    | [] =>
        print ("No fastq.gz files found in " ++ title)%string d
    end.

(** The loop of [main] over the entries of [fastq_pass], in that
    directory. *)
Fixpoint collect_kreports (db : string) (subdirs : list string)
         (kreport_dfs : list DataFrame) : io (list DataFrame) :=
  match subdirs with
  | [] => ret kreport_dfs
  | subdir :: rest =>
      fun d =>
        match lookup subdir d with
        | Some (Dir (_ :: _)) =>
            (within subdir (run_kraken subdir db) ;;;
             text <~ read [subdir; (subdir ++ ".kreport.txt")%string] ;;
             kreport_df <~ lift (read_csv text) ;;
             collect_kreports db rest (kreport_dfs ++ [kreport_df])) d
        | _ =>
            (print ("Skipping empty subdirectory: " ++ subdir)%string ;;;
             collect_kreports db rest kreport_dfs) d
        end
  end.

(** Lines 153-161 of [main]: the per-sample tables, then the same rows
    again under the label "all". *)
Definition combine_kreports (kreport_dfs : list DataFrame) : outcome DataFrame :=
  combined_kreport <- concat kreport_dfs ;;
  let combined_kreport_all := set_column0 "all" combined_kreport in
  concat [combined_kreport; combined_kreport_all].

(** [main], in the analysis directory; [analyze_bacterial] is the answer
    to the prompt, lower-cased and stripped. *)
Definition main (analyze_bacterial : string) : io unit :=
  pdf_path <~ generate_sequencing_summary_pdf ;;
  let '(kraken_db_path, output_file_name) :=
    if existsb (String.eqb analyze_bacterial) ["yes"; "y"]
    then ("/data/kraken_databases/k2_pluspf_08gb_20231009/",
          "virus_bacteria.kraken.txt")
    else ("/data/kraken_databases/k2_human-viral_20240111/",
          "virus.kraken.txt") in
  kreport_dfs <~
    within "fastq_pass"
      (fun d => collect_kreports kraken_db_path (listdir d) [] d) ;;
  combined_kreport_final <~ lift (combine_kreports kreport_dfs) ;;
  open_wb output_file_name ;;;
  write output_file_name (to_csv combined_kreport_final) ;;;
  print ("Kraken analysis results saved in " ++ output_file_name)%string.

End Pipeline.

(** Stand-ins for the outside world, to run the theorems on. *)
Definition toy_classifier (command : kraken_command) (d : dir) : dir :=
  put (kraken_report command)
      (File ("100.00" ++ String tab ("unclassified" ++ String newline ""))%string) d.

Definition toy_render (pages : list histogram) : string :=
  String.concat "|" (map hist_title pages).

Definition toy_read (passes : bool) : SummaryFrame :=
  [ {| mean_qscore_template := 9; sequence_length_template := 1200;
       passes_filtering := passes |} ].

End NanoporeMet.

(* ================================================================== *)
(** * Properties of coverage.py *)

Module CoverageFacts.
Import Py.
Import Coverage.

Lemma sum_from (l : list Z) (a : Z) :
  fold_left Z.add l a = a + fold_right Z.add 0 l.
Proof.
  revert a; induction l as [|v l IH]; intros a; simpl.
  - lia.
  - rewrite IH; lia.
Qed.

Lemma sum_ones {A : Type} (l : list A) :
  sum (map (fun _ => 1) l) = len l.
Proof.
  unfold sum, len. rewrite sum_from.
  induction l as [|v l IH]; [reflexivity|].
  cbn [map fold_right List.length]. rewrite Nat2Z.inj_succ. lia.
Qed.

Lemma filter_depths (rows : list (Z * Z)) :
  filter (fun val => 0 <? val) (map snd rows) = map snd (covered rows).
Proof.
  unfold covered.
  induction rows as [|r rows IH]; simpl; [reflexivity|].
  destruct (0 <? snd r); simpl; now rewrite IH.
Qed.

Lemma read_lines_rows (lines : list string) (rows : list (Z * Z)) :
  Forall2 line_has lines rows ->
  forall data columns,
  exists last,
    read_lines lines data columns =
      Ok ({| x := x data ++ map fst rows; y := y data ++ map snd rows |}, last)
    /\ (lines = [] -> last = columns)
    /\ (lines <> [] -> exists c0 c1 more, last = Some (c0 :: c1 :: more)).
Proof.
  induction 1 as [|line row lines rows Hline _ IH]; intros data columns.
  - exists columns. simpl. rewrite !app_nil_r. destruct data; simpl.
    repeat split; try reflexivity. intros H; now elim H.
  - destruct Hline as [cols Hcols]. simpl. rewrite Hcols. simpl.
    destruct (IH {| x := x data ++ [fst row]; y := y data ++ [snd row] |} (Some cols))
      as (last & Hrun & Hnil & Hcons).
    exists last. simpl in Hrun. rewrite <- !app_assoc in Hrun. simpl in Hrun.
    split; [exact Hrun|]. split; [discriminate|]. intros _.
    destruct lines as [|l2 lines].
    + rewrite (Hnil eq_refl).
      unfold read_line in Hcols.
      destruct (split tab (strip line)) as [|c0 [|c1 more]]; simpl in Hcols;
        try discriminate.
      destruct (int c1); simpl in Hcols; try discriminate.
      destruct (index (c0 :: c1 :: more) 2); simpl in Hcols; try discriminate.
      destruct (int a0); simpl in Hcols; try discriminate.
      injection Hcols as <- _ _. now exists c0, c1, more.
    + apply Hcons. discriminate.
Qed.

(** C9. Only names that end in [.fasta] and do not start with [._] count
    as reference files: a listing with one such name, whatever else it
    holds (metadata copies starting with [._], files of other kinds),
    yields that name instead of failing as ambiguous. *)
Theorem find_reference_fasta_ignores_others :
  forall (before after : list string) (file : string),
    endswith file ".fasta" = true ->
    startswith file "._" = false ->
    (forall other, In other (before ++ after) ->
                   startswith other "._" = true \/ endswith other ".fasta" = false) ->
    find_reference_fasta (before ++ file :: after) = Ok file.
Proof.
  intros before after file Hend Hstart Hothers.
  assert (Hdrop : forall l, (forall o, In o l ->
             startswith o "._" = true \/ endswith o ".fasta" = false) ->
             filter (fun f => endswith f ".fasta" && negb (startswith f "._")) l = []).
  { induction l as [|o l IH]; intros Hl; simpl; [reflexivity|].
    destruct (Hl o (or_introl eq_refl)) as [E|E]; rewrite E;
      rewrite ?andb_false_r; simpl; apply IH; intros; apply Hl; now right. }
  unfold find_reference_fasta.
  rewrite filter_app. cbn [filter]. rewrite Hend, Hstart. cbn [andb negb].
  rewrite (Hdrop before), (Hdrop after).
  - reflexivity.
  - intros o Ho. apply Hothers, in_or_app. now right.
  - intros o Ho. apply Hothers, in_or_app. now left.
Qed.

Lemma find_reference_fasta_ignores_others_witness :
  find_reference_fasta (["._ref.fasta"; "notes.txt"] ++ "ref.fasta" :: ["ref.fasta.fai"])
  = Ok "ref.fasta".
Proof.
  apply find_reference_fasta_ignores_others; [reflexivity | reflexivity |].
  intros other Hin. simpl in Hin.
  destruct Hin as [<-|[<-|[<-|[]]]]; [left | right | right]; reflexivity.
Defined.

(** C2, as the claim states it: an empty table makes the reducer fail
    through an explicit guard.  The source has none. *)
Lemma plot_coverage_empty_not_guarded :
  ~ (exists e msg, plot_coverage [] = Raised e msg).
Proof.
  intros (e & msg & H). vm_compute in H. discriminate.
Qed.

(** C2, amended. For an empty table [plot_coverage] fails with the
    [ZeroDivisionError] of its first division; it returns no metrics. *)
Theorem plot_coverage_empty_fails :
  plot_coverage [] = Failed ZeroDivisionError
  /\ forall p, plot_coverage [] <> Ok p.
Proof.
  split; [reflexivity|]. intros p H. vm_compute in H. discriminate.
Qed.

End CoverageFacts.

(* ================================================================== *)
(** * Properties of the table operations *)

Module PandasFacts.
Import Py.
Import Pandas.

Lemma length_pad (w : nat) (r : row) :
  List.length (pad w r) = Nat.max (List.length r) w.
Proof.
  unfold pad. rewrite length_app, repeat_length. lia.
Qed.

Lemma pad_full (w : nat) (r : row) :
  (w <= List.length r)%nat -> pad w r = r.
Proof.
  intros H. unfold pad.
  replace (w - List.length r)%nat with 0%nat by lia.
  apply app_nil_r.
Qed.

Lemma width_ge (df : DataFrame) (r : row) :
  In r df -> (List.length r <= width df)%nat.
Proof.
  induction df as [|r0 df IH]; simpl; [tauto|].
  intros [<-|H]; [lia|]. specialize (IH H). lia.
Qed.

Lemma width_uniform (n : nat) (df : DataFrame) :
  (forall r, In r df -> List.length r = n) -> df <> [] -> width df = n.
Proof.
  induction df as [|r0 df IH]; intros Hall Hne; [now elim Hne|].
  simpl. rewrite (Hall r0 (or_introl eq_refl)).
  destruct df as [|r1 df]; [simpl; lia|].
  rewrite IH; [lia | | discriminate].
  intros r Hr. apply Hall. now right.
Qed.

Lemma width_le (n : nat) (df : DataFrame) :
  (forall r, In r df -> (List.length r <= n)%nat) -> (width df <= n)%nat.
Proof.
  induction df as [|r0 df IH]; intros Hall; simpl; [lia|].
  assert (List.length r0 <= n)%nat by (apply Hall; now left).
  assert (width df <= n)%nat by (apply IH; intros; apply Hall; now right).
  lia.
Qed.

Lemma max_width_ge (frames : list DataFrame) (df : DataFrame) :
  In df frames -> (width df <= fold_right Nat.max 0%nat (map width frames))%nat.
Proof.
  induction frames as [|f frames IH]; simpl; [tauto|].
  intros [<-|H]; [lia|]. specialize (IH H). lia.
Qed.

Lemma max_width_le (n : nat) (frames : list DataFrame) :
  (forall df, In df frames -> (width df <= n)%nat) ->
  (fold_right Nat.max 0%nat (map width frames) <= n)%nat.
Proof.
  induction frames as [|f frames IH]; intros Hall; simpl; [lia|].
  assert (width f <= n)%nat by (apply Hall; now left).
  assert (fold_right Nat.max 0%nat (map width frames) <= n)%nat
    by (apply IH; intros; apply Hall; now right).
  lia.
Qed.

(** Every row of a concatenation has the width of its widest input row. *)
Lemma concat_rows_width (frames : list DataFrame) (r : row) :
  In r (map (pad (fold_right Nat.max 0%nat (map width frames)))
            (List.concat frames)) ->
  List.length r = fold_right Nat.max 0%nat (map width frames).
Proof.
  intros Hin. apply in_map_iff in Hin as (r0 & <- & Hr0).
  apply in_concat in Hr0 as (df & Hdf & Hr0).
  rewrite length_pad.
  pose proof (width_ge df r0 Hr0). pose proof (max_width_ge frames df Hdf). lia.
Qed.

Lemma round_half_even_near (q : Q) :
  (q - (1 # 2) <= inject_Z (round_half_even q) <= q + (1 # 2))%Q.
Proof.
  unfold round_half_even.
  pose proof (Qfloor_le q) as Hlo. pose proof (Qlt_floor q) as Hhi.
  assert (Hsucc : (inject_Z (Qfloor q + 1) == inject_Z (Qfloor q) + 1)%Q)
    by (rewrite inject_Z_plus; reflexivity).
  rewrite Hsucc in Hhi.
  destruct (Qcompare (q - inject_Z (Qfloor q)) (1 # 2)) eqn:Hc.
  - apply Qeq_alt in Hc.
    destruct (Z.even (Qfloor q)); rewrite ?Hsucc; split; lra.
  - apply Qlt_alt in Hc. split; lra.
  - apply Qgt_alt in Hc. rewrite Hsucc. split; lra.
Qed.

End PandasFacts.

(* ================================================================== *)
(** * Properties of directories and of the read aggregator *)

Module FSFacts.
Import Py.
Import FS.
Import Coverage.

Lemma lookup_put_same (name : string) (v : node) (d : dir) :
  lookup name (put name v d) = Some v.
Proof.
  induction d as [|[n w] d IH]; simpl.
  - now rewrite String.eqb_refl.
  - destruct (String.eqb n name) eqn:E; simpl; rewrite E; [reflexivity | exact IH].
Qed.

Lemma lookup_put_other (name other : string) (v : node) (d : dir) :
  name <> other -> lookup other (put name v d) = lookup other d.
Proof.
  intros Hne. pose proof (proj2 (String.eqb_neq name other) Hne) as Hb.
  induction d as [|[n w] d IH]; simpl.
  - now rewrite Hb.
  - destruct (String.eqb n name) eqn:E; simpl.
    + apply String.eqb_eq in E. subst n. now rewrite Hb.
    + now rewrite IH.
Qed.

Lemma put_same_value (name : string) (v : node) (d : dir) :
  lookup name d = Some v -> put name v d = d.
Proof.
  induction d as [|[n w] d IH]; simpl; [discriminate|].
  destruct (String.eqb n name) eqn:E.
  - now intros [= ->].
  - intros H. now rewrite IH.
Qed.

Lemma for_each_map {A B : Type} (f : A -> B) (xs : list A) (body : B -> io unit) :
  for_each (map f xs) body = for_each xs (fun a => body (f a)).
Proof.
  induction xs as [|a xs IH]; simpl; [reflexivity | now rewrite IH].
Qed.

(** One round of a copying loop: the fragment is appended to the open
    file, or the read fails and nothing changes. *)
Lemma copy_step (out : string) (path : list string) (d : dir) (old : string) :
  lookup out d = Some (File old) ->
  (exists data,
      (data <~ read path ;; write out data) d
      = (Ok tt, put out (File (old ++ data)%string) d, [Write out data]))
  \/ (exists e, (data <~ read path ;; write out data) d = (Failed e, d, [])).
Proof.
  intros Hout. unfold bind, read.
  destruct (resolve path d) as [[data|sub]|].
  - left. exists data. unfold write. rewrite Hout. reflexivity.
  - right. now exists IsADirectoryError.
  - right. now exists FileNotFoundError.
Qed.

(** A copying loop leaves the open file a file. *)
Lemma copy_loop_keeps (out : string) (paths : list (list string)) :
  forall (d : dir) (old : string),
    lookup out d = Some (File old) ->
    exists now,
      lookup out (files (for_each paths
                           (fun path => data <~ read path ;; write out data) d))
      = Some (File now).
Proof.
  induction paths as [|path paths IH]; intros d old Hout.
  - exists old. exact Hout.
  - cbn [for_each]. unfold bind at 1.
    destruct (copy_step out path d old Hout) as [[data ->]|[e ->]].
    + destruct (IH (put out (File (old ++ data)%string) d) (old ++ data)%string
                   (lookup_put_same _ _ _)) as [now Hnow].
      exists now.
      destruct (for_each paths _ _) as [[r d2] ev2]. exact Hnow.
    + exists old. exact Hout.
Qed.

(** After any call of the read aggregator the combined-read file is
    there. *)
Lemma concatenate_fastq_leaves_file (d : dir) :
  path_exists "concatenated.fastq" (files (concatenate_fastq d)) = true.
Proof.
  unfold concatenate_fastq, bind at 1, exists_.
  destruct (path_exists "concatenated.fastq" d) eqn:Hex.
  - unfold print. simpl. exact Hex.
  - unfold bind at 1, open_wb. unfold path_exists in Hex.
    destruct (lookup "concatenated.fastq" d) as [n|] eqn:Hl; [discriminate|].
    destruct (copy_loop_keeps "concatenated.fastq" (rglob ".fastq.gz" d)
                (put "concatenated.fastq" (File "") d) ""
                (lookup_put_same _ _ _)) as [now Hnow].
    destruct (for_each _ _ _) as [[r d2] ev2].
    unfold files in *. simpl in *. unfold path_exists. now rewrite Hnow.
Qed.

(** C5. When the combined-read file exists, the read aggregator reports
    the reuse and does nothing else; a second call on the same directory
    therefore writes nothing and leaves the combined-read file, and the
    whole directory, as the first call left them. *)
Theorem concatenate_fastq_idempotent :
  (forall d : dir,
      path_exists "concatenated.fastq" d = true ->
      concatenate_fastq d
      = (Ok tt, d, [Print "Using previously generated concatenated.fastq file."]))
  /\ (forall d : dir,
         let first := concatenate_fastq d in
         let second := concatenate_fastq (files first) in
         result second = Ok tt
         /\ files second = files first
         /\ lookup "concatenated.fastq" (files second)
            = lookup "concatenated.fastq" (files first)
         /\ filter is_write (events second) = []
         /\ events second
            = [Print "Using previously generated concatenated.fastq file."]).
Proof.
  assert (Hreuse : forall d : dir,
      path_exists "concatenated.fastq" d = true ->
      concatenate_fastq d
      = (Ok tt, d, [Print "Using previously generated concatenated.fastq file."])).
  { intros d Hex. unfold concatenate_fastq, bind, exists_. rewrite Hex. reflexivity. }
  split; [exact Hreuse|].
  intros d first second. subst second.
  rewrite (Hreuse (files first) (concatenate_fastq_leaves_file d)).
  repeat split.
Qed.

Lemma concatenate_fastq_idempotent_witness :
  concatenate_fastq [("concatenated.fastq", File "ACGT"); ("a.fastq.gz", File "TT")]
  = (Ok tt, [("concatenated.fastq", File "ACGT"); ("a.fastq.gz", File "TT")],
     [Print "Using previously generated concatenated.fastq file."]).
Proof.
  apply (proj1 concatenate_fastq_idempotent). reflexivity.
Defined.

End FSFacts.

(* ================================================================== *)
(** * Properties of the sequencing summary *)

Module SummaryFacts.
Import Py.
Import FS.
Import Pandas.
Import NanoporeMet.

Section Summary.

Variable parse_summary : string -> outcome SummaryFrame.
Variable render_pdf : list histogram -> string.

(** C7, amended. Without a summary table the call does not raise: it
    returns the report path and leaves the directory alone; it says that
    the table is not available yet unless the report document is already
    there, in which case it says that the report has already been
    created. *)
Theorem summary_absent_returns :
  forall d : dir,
    glob_affix "sequencing_summary_" ".txt" d = [] ->
    let r := generate_sequencing_summary_pdf parse_summary render_pdf d in
    result r = Ok "sequencing_summary.pdf"
    /\ files r = d
    /\ events r
       = [Print (if path_exists "sequencing_summary.pdf" d
                 then "The sequencing_summary.pdf file has already been created."
                 else "The sequencing_summary.txt file is not available yet.")].
Proof.
  intros d Hglob. cbv zeta.
  unfold generate_sequencing_summary_pdf.
  cbv beta delta [FS.bind exists_]. cbv beta iota.
  destruct (path_exists "sequencing_summary.pdf" d).
  - repeat split.
  - rewrite Hglob. repeat split.
Qed.

End Summary.

(** C7, as the claim states it: without a summary table the call says
    that the table is not available yet.  With the report already there
    it says something else. *)
Lemma summary_absent_other_notice :
  let d := [("sequencing_summary.pdf", File "%PDF")] in
  let r := generate_sequencing_summary_pdf
             (fun _ => Failed ParserError) (fun _ => "") d in
  glob_affix "sequencing_summary_" ".txt" d = []
  /\ events r = [Print "The sequencing_summary.pdf file has already been created."]
  /\ ~ In (Print "The sequencing_summary.txt file is not available yet.") (events r).
Proof.
  cbv zeta. split; [reflexivity|]. split; [reflexivity|].
  intros [H|[]]. discriminate.
Qed.

Lemma summary_absent_returns_witness :
  let r := generate_sequencing_summary_pdf
             (fun _ => Failed ParserError) (fun _ => "")
             [("fastq_pass", Dir [])] in
  result r = Ok "sequencing_summary.pdf"
  /\ files r = [("fastq_pass", Dir [])]
  /\ events r = [Print "The sequencing_summary.txt file is not available yet."].
Proof.
  apply (summary_absent_returns (fun _ => Failed ParserError) (fun _ => "")
           [("fastq_pass", Dir [])]).
  reflexivity.
Defined.

End SummaryFacts.

(* ================================================================== *)
(** * Properties of the classification tables *)

Module AggregatorFacts.
Import Py.
Import Pandas.
Import NanoporeMet.
Import PandasFacts.

(** Re-aligning a row to a width of at most one column more than it has
    changes neither its label nor its classifier columns. *)
Lemma pad_keeps_row (w w' : nat) (r : row) :
  List.length r = w -> (w' <= Nat.max w 1)%nat ->
  sampleLabel (pad w' r) = sampleLabel r /\ taxonFields (pad w' r) = taxonFields r.
Proof.
  intros Hlen Hw. destruct r as [|c t].
  - simpl in Hlen. subst w. unfold pad. simpl.
    destruct w' as [|[|w']]; [split; reflexivity | split; reflexivity | lia].
  - rewrite pad_full; [split; reflexivity|]. simpl in *. lia.
Qed.

Lemma relabelled_width (w : nat) (label : string) (df : DataFrame) :
  (forall r, In r df -> List.length r = w) ->
  forall a, In a (set_column0 label df) -> List.length a = Nat.max w 1.
Proof.
  intros Hall a Ha. unfold set_column0 in Ha.
  apply in_map_iff in Ha as (r & <- & Hr). specialize (Hall r Hr).
  destruct r; simpl in *; lia.
Qed.

(** C3, as the claim states it, at the collection with no report. *)
Lemma combine_kreports_nothing :
  ~ (exists final, combine_kreports [] = Ok final
                   /\ List.length final = (2 * 0)%nat).
Proof.
  intros (final & H & _). vm_compute in H. discriminate.
Qed.

(** C3, amended. For a collection of at least one per-sample table, M
    rows in all, the final table has 2M rows: row i is the i-th
    per-sample row with its own label, row M+i has the same classifier
    columns under the label "all"; no other label occurs.  Tables of one
    common width are taken over as they are. *)
Theorem combine_kreports_doubles :
  forall kreport_dfs : list DataFrame,
    kreport_dfs <> [] ->
    exists combined final,
      concat kreport_dfs = Ok combined
      /\ combine_kreports kreport_dfs = Ok final
      /\ List.length combined = List.length (List.concat kreport_dfs)
      /\ List.length final = (2 * List.length combined)%nat
      /\ (forall i r,
             nth_error combined i = Some r ->
             exists r1 r2,
               nth_error final i = Some r1
               /\ nth_error final (List.length combined + i) = Some r2
               /\ sampleLabel r1 = sampleLabel r
               /\ taxonFields r1 = taxonFields r
               /\ sampleLabel r2 = Str "all"
               /\ taxonFields r2 = taxonFields r)
      /\ (forall r', In r' final ->
             sampleLabel r' = Str "all"
             \/ exists r, In r combined /\ sampleLabel r' = sampleLabel r)
      /\ (forall n,
             (forall r, In r (List.concat kreport_dfs) -> List.length r = n) ->
             combined = List.concat kreport_dfs).
Proof.
  intros [|df dfs] Hne; [now elim Hne|]. clear Hne.
  set (frames := df :: dfs).
  set (w := fold_right Nat.max 0%nat (map width frames)).
  set (combined := map (pad w) (List.concat frames)).
  assert (Hrows : forall r, In r combined -> List.length r = w)
    by (intros r Hr; now apply concat_rows_width).
  set (all := set_column0 "all" combined).
  assert (Hall : forall a, In a all -> List.length a = Nat.max w 1)
    by (apply relabelled_width; exact Hrows).
  set (w' := fold_right Nat.max 0%nat (map width [combined; all])).
  assert (Hw' : (w' <= Nat.max w 1)%nat).
  { apply max_width_le. intros f [<-|[<-|[]]]; apply width_le.
    - intros r Hr. rewrite (Hrows r Hr). lia.
    - intros a Ha. rewrite (Hall a Ha). lia. }
  assert (Hfinal : combine_kreports frames
                   = Ok (map (pad w') combined ++ all)).
  { unfold combine_kreports. change (concat frames) with (Ok combined).
    cbn [Py.bind concat List.concat]. fold all. fold w'.
    rewrite app_nil_r, map_app. do 2 f_equal.
    transitivity (map (fun a : row => a) all); [|apply map_id].
    apply map_ext_in.
    intros a Ha. apply pad_full. rewrite (Hall a Ha). exact Hw'. }
  exists combined, (map (pad w') combined ++ all).
  split; [reflexivity|]. split; [exact Hfinal|].
  split; [apply length_map|].
  split.
  { rewrite length_app. unfold all, set_column0.
    repeat rewrite length_map.
    change (list cell) with row.
    generalize (List.length combined). intros m. lia. }
  split.
  { intros i r Hi.
    assert (Hlt : (i < List.length combined)%nat)
      by (apply nth_error_Some; rewrite Hi; discriminate).
    exists (pad w' r), (Str "all" :: tl r).
    split.
    { rewrite nth_error_app1 by (rewrite length_map; exact Hlt).
      apply map_nth_error. exact Hi. }
    split.
    { rewrite nth_error_app2 by (rewrite length_map; lia).
      rewrite length_map.
      replace (List.length combined + i - List.length combined)%nat with i by lia.
      unfold all, set_column0.
      apply (map_nth_error (fun r0 : row => Str "all" :: tl r0)). exact Hi. }
    assert (Hin : In r combined) by (eapply nth_error_In; eassumption).
    destruct (pad_keeps_row w w' r (Hrows r Hin) Hw') as [Hl Hf].
    repeat split; assumption || reflexivity. }
  split.
  { intros r' Hr'. apply in_app_or in Hr' as [Hr'|Hr'].
    - right. apply in_map_iff in Hr' as (r & <- & Hr).
      exists r. split; [exact Hr|].
      apply (pad_keeps_row w w' r (Hrows r Hr) Hw').
    - left. unfold all, set_column0 in Hr'.
      apply in_map_iff in Hr' as (r & <- & _). reflexivity. }
  intros n Hn. unfold combined.
  transitivity (map (fun r : row => r) (List.concat frames)); [|apply map_id].
  apply map_ext_in.
  intros r Hr. apply pad_full. rewrite (Hn r Hr).
  apply max_width_le. intros f Hf. apply width_le.
  intros r0 Hr0. rewrite (Hn r0); [lia|].
  apply in_concat. exists f. split; assumption.
Qed.

Lemma combine_kreports_doubles_witness :
  exists combined final,
    concat [[[Str "barcode01"; Str "98.5"; Str "U"]];
            [[Str "barcode02"; Str "1.5"; Str "V"]]] = Ok combined
    /\ combine_kreports [[[Str "barcode01"; Str "98.5"; Str "U"]];
                         [[Str "barcode02"; Str "1.5"; Str "V"]]] = Ok final
    /\ List.length combined = 2%nat
    /\ List.length final = (2 * List.length combined)%nat
    /\ (forall i r,
           nth_error combined i = Some r ->
           exists r1 r2,
             nth_error final i = Some r1
             /\ nth_error final (List.length combined + i) = Some r2
             /\ sampleLabel r1 = sampleLabel r
             /\ taxonFields r1 = taxonFields r
             /\ sampleLabel r2 = Str "all"
             /\ taxonFields r2 = taxonFields r)
    /\ (forall r', In r' final ->
           sampleLabel r' = Str "all"
           \/ exists r, In r combined /\ sampleLabel r' = sampleLabel r)
    /\ (forall n,
           (forall r, In r [[Str "barcode01"; Str "98.5"; Str "U"];
                            [Str "barcode02"; Str "1.5"; Str "V"]] ->
                      List.length r = n) ->
           combined = [[Str "barcode01"; Str "98.5"; Str "U"];
                       [Str "barcode02"; Str "1.5"; Str "V"]]).
Proof.
  apply (combine_kreports_doubles
           [[[Str "barcode01"; Str "98.5"; Str "U"]];
            [[Str "barcode02"; Str "1.5"; Str "V"]]]).
  discriminate.
Defined.

End AggregatorFacts.

(* ================================================================== *)
(** * Properties of the per-sample runner and of [main] *)

Module RunnerFacts.
Import Py.
Import FS.
Import Pandas.
Import Coverage.
Import NanoporeMet.
Import FSFacts.

Lemma preserves_bind {A B : Type} (name : string) (m : io A) (k : A -> io B) :
  preserves name m -> (forall a, preserves name (k a)) ->
  preserves name (FS.bind m k).
Proof.
  intros Hm Hk d. specialize (Hm d). unfold FS.bind.
  destruct (m d) as [[[a|e msg|e] d1] ev1]; try exact Hm.
  specialize (Hk a d1). destruct (k a d1) as [[r d2] ev2].
  unfold files in *. simpl in *. congruence.
Qed.

Lemma preserves_pure {A : Type} (name : string) (m : io A) :
  (forall d, files (m d) = d) -> preserves name m.
Proof. intros H d. now rewrite H. Qed.

Lemma preserves_read (name : string) (path : list string) :
  preserves name (read path).
Proof.
  apply preserves_pure. intros d. unfold read.
  destruct (resolve path d) as [[c|sub]|]; reflexivity.
Qed.

Lemma preserves_open_wb (name out : string) :
  out <> name -> preserves name (open_wb out).
Proof.
  intros Hne d. unfold open_wb.
  destruct (lookup out d) as [[c|sub]|]; try reflexivity;
    apply lookup_put_other; exact Hne.
Qed.

Lemma preserves_write (name out data : string) :
  out <> name -> preserves name (write out data).
Proof.
  intros Hne d. unfold write.
  destruct (lookup out d) as [[c|sub]|]; try reflexivity.
  apply lookup_put_other; exact Hne.
Qed.

Lemma bind_stops {A B : Type} (m : io A) (k : A -> io B) (d : dir) :
  is_ok (result (m d)) = false -> is_ok (result (FS.bind m k d)) = false.
Proof.
  unfold FS.bind. destruct (m d) as [[[a|e msg|e] d1] ev1]; simpl; congruence.
Qed.

Lemma bind_not_ok {A B : Type} (m : io A) (k : A -> io B) (d : dir) :
  (forall a d1 ev1, m d = (Ok a, d1, ev1) -> is_ok (result (k a d1)) = false) ->
  is_ok (result (FS.bind m k d)) = false.
Proof.
  intros H. unfold FS.bind.
  destruct (m d) as [[[a|e msg|e] d1] ev1]; try reflexivity.
  specialize (H a d1 ev1 eq_refl). destruct (k a d1) as [[r d2] ev2]. exact H.
Qed.

Lemma lookup_listed (name : string) (d : dir) (v : node) :
  lookup name d = Some v -> In name (listdir d).
Proof.
  induction d as [|[n w] d IH]; simpl; [discriminate|].
  destruct (String.eqb n name) eqn:E.
  - apply String.eqb_eq in E. now left.
  - intros H. right. now apply IH.
Qed.

Lemma no_reads_listed (es : dir) :
  (forall name, In name (listdir es) -> endswith name ".fastq.gz" = false) ->
  filter (fun file => endswith file ".fastq.gz") (listdir es) = [].
Proof.
  induction (listdir es) as [|n l IH]; intros H; simpl; [reflexivity|].
  rewrite (H n (or_introl eq_refl)). apply IH. intros; apply H; now right.
Qed.

Section Runner.

Variable parse_summary : string -> outcome SummaryFrame.
Variable render_pdf : list histogram -> string.
Variable kraken2 : kraken_command -> dir -> dir.

Lemma generate_preserves (name : string) :
  name <> "sequencing_summary.pdf" ->
  preserves name (generate_sequencing_summary_pdf parse_summary render_pdf).
Proof.
  intros Hne.
  assert (Hpdf : "sequencing_summary.pdf" <> name) by congruence.
  unfold generate_sequencing_summary_pdf.
  apply preserves_bind; [now apply preserves_pure|].
  intros [|].
  - apply preserves_bind; intros; now apply preserves_pure.
  - intros d. destruct (glob_affix "sequencing_summary_" ".txt" d) as [|file_path l].
    + apply (preserves_bind name (print _) (fun _ => ret _));
        intros; now apply preserves_pure.
    + revert d. change (preserves name
        (content <~ read [file_path] ;;
         data <~ lift (parse_summary content) ;;
         save_pages render_pdf "sequencing_summary.pdf"
           [ plot_histogram data "mean_qscore_template"
               "Mean Q score (all reads)" "Mean Q score" "Frequency" false;
             plot_histogram (filter passes_filtering data) "mean_qscore_template"
               "Mean Q score (quality-filtered reads)" "Mean Q score"
               "Frequency" false;
             plot_histogram data "sequence_length_template"
               "Sequence length (all reads)" "Sequence length" "Frequency" true;
             plot_histogram (filter passes_filtering data) "sequence_length_template"
               "Sequence length (quality-filtered reads)" "Sequence length"
               "Frequency" true ] ;;;
         print ("Plots saved in " ++ "sequencing_summary.pdf")%string ;;;
         ret "sequencing_summary.pdf")).
      apply preserves_bind; [apply preserves_read|]. intros content.
      apply preserves_bind; [now apply preserves_pure|]. intros data.
      apply preserves_bind.
      * unfold save_pages. destruct (collect_pages _ _) as [pages r].
        apply preserves_bind; [now apply preserves_open_wb|]. intros _.
        apply preserves_bind; [now apply preserves_write|]. intros _.
        now apply preserves_pure.
      * intros _. apply preserves_bind; intros; now apply preserves_pure.
Qed.

(** Without a read file in the sample directory the runner only prints
    its notice. *)
Lemma run_kraken_without_reads (title db : string) (es : dir) :
  (forall name, In name (listdir es) -> endswith name ".fastq.gz" = false) ->
  run_kraken kraken2 title db es
  = (Ok tt, es, [Print ("No fastq.gz files found in " ++ title)%string]).
Proof.
  intros H. unfold run_kraken. rewrite (no_reads_listed es H). reflexivity.
Qed.

(** An empty sample directory is passed over with a notice. *)
Lemma empty_subdirectory_skipped (db subdir : string) (rest : list string)
      (kreport_dfs : list DataFrame) (d : dir) :
  lookup subdir d = Some (Dir []) ->
  collect_kreports kraken2 db (subdir :: rest) kreport_dfs d
  = (print ("Skipping empty subdirectory: " ++ subdir)%string ;;;
     collect_kreports kraken2 db rest kreport_dfs) d.
Proof.
  intros H. cbn [collect_kreports]. rewrite H. reflexivity.
Qed.

(** The loop does not get past a sample directory that holds entries,
    none of them a read file, and no report of its own. *)
Lemma collect_kreports_stops (db subdir : string) (es : dir) :
  es <> [] ->
  (forall name, In name (listdir es) -> endswith name ".fastq.gz" = false) ->
  lookup (subdir ++ ".kreport.txt")%string es = None ->
  forall (subdirs : list string) (kreport_dfs : list DataFrame) (d : dir),
    In subdir subdirs ->
    lookup subdir d = Some (Dir es) ->
    is_ok (result (collect_kreports kraken2 db subdirs kreport_dfs d)) = false.
Proof.
  intros Hne Hnoreads Hnoreport.
  induction subdirs as [|name rest IH]; intros kreport_dfs d Hin Hsub; [now elim Hin|].
  cbn [collect_kreports].
  destruct (String.eqb name subdir) eqn:E.
  - apply String.eqb_eq in E. subst name. rewrite Hsub.
    destruct es as [|e es']; [now elim Hne|].
    unfold FS.bind at 1, within. rewrite Hsub.
    rewrite (run_kraken_without_reads subdir db (e :: es') Hnoreads).
    unfold FS.bind at 1, read. cbn [resolve].
    rewrite lookup_put_same. cbn [resolve]. rewrite Hnoreport. reflexivity.
  - apply String.eqb_neq in E.
    assert (Hrest : In subdir rest) by (destruct Hin; [congruence | assumption]).
    destruct (lookup name d) as [[c|[|e0 sub]]|] eqn:Hl.
    + apply bind_not_ok. intros [] d1 ev1 H. injection H as <- _. now apply IH.
    + apply bind_not_ok. intros [] d1 ev1 H. injection H as <- _. now apply IH.
    + apply bind_not_ok. intros [] d1 ev1 H.
      assert (Hd1 : lookup subdir d1 = Some (Dir es)).
      { unfold within in H. rewrite Hl in H.
        destruct (run_kraken kraken2 name db (e0 :: sub)) as [[r sub'] ev].
        injection H as _ <- _. rewrite lookup_put_other; assumption. }
      apply bind_not_ok. intros text d2 ev2 H2.
      assert (d2 = d1) as ->.
      { unfold read in H2. destruct (resolve _ d1) as [[c|s0]|]; congruence. }
      apply bind_not_ok. intros df d3 ev3 H3.
      unfold lift in H3. injection H3 as _ <- _. now apply IH.
    + apply bind_not_ok. intros [] d1 ev1 H. injection H as <- _. now apply IH.
Qed.

(** C8, at its failing input. A run whose only sample directory is
    empty prints the notice for it and then stops with the [ValueError]
    of [pd.concat] on no table; nothing is written. *)
Theorem main_single_empty_subdirectory :
  forall answer : string,
    main parse_summary render_pdf kraken2 answer
         [("fastq_pass", Dir [("barcode01", Dir [])])]
    = (Failed ValueError,
       [("fastq_pass", Dir [("barcode01", Dir [])])],
       [Print "The sequencing_summary.txt file is not available yet.";
        Print "Skipping empty subdirectory: barcode01"]).
Proof.
  intros answer. unfold main.
  destruct (existsb (String.eqb answer) ["yes"; "y"]); reflexivity.
Qed.

(** C10, amended. For a sample directory that holds entries, none of
    them ending in [.fastq.gz], and no report file of its own name, the
    runner writes nothing and prints its notice, reading the report
    fails, and [main] does not return normally. *)
Theorem main_stops_without_reads :
  forall (answer subdir : string) (d subs es : dir),
    lookup "fastq_pass" d = Some (Dir subs) ->
    lookup subdir subs = Some (Dir es) ->
    es <> [] ->
    (forall name, In name (listdir es) -> endswith name ".fastq.gz" = false) ->
    lookup (subdir ++ ".kreport.txt")%string es = None ->
    (forall db,
        run_kraken kraken2 subdir db es
        = (Ok tt, es, [Print ("No fastq.gz files found in " ++ subdir)%string]))
    /\ (forall db,
           read [subdir; (subdir ++ ".kreport.txt")%string]
                (files (within subdir (run_kraken kraken2 subdir db) subs))
           = (Failed FileNotFoundError,
              files (within subdir (run_kraken kraken2 subdir db) subs), []))
    /\ is_ok (result (main parse_summary render_pdf kraken2 answer d)) = false.
Proof.
  intros answer subdir d subs es Hpass Hsub Hne Hnoreads Hnoreport.
  split; [intros db; now apply run_kraken_without_reads|].
  split.
  { intros db. unfold within. rewrite Hsub.
    rewrite (run_kraken_without_reads subdir db es Hnoreads).
    unfold files, read. cbn [fst snd resolve].
    rewrite lookup_put_same. cbn [resolve]. now rewrite Hnoreport. }
  unfold main. apply bind_not_ok. intros pdf_path d1 ev1 Hgen.
  assert (Hpass1 : lookup "fastq_pass" d1 = Some (Dir subs)).
  { rewrite <- Hpass.
    pose proof (generate_preserves "fastq_pass" ltac:(discriminate) d) as Hp.
    rewrite Hgen in Hp. exact Hp. }
  destruct (existsb (String.eqb answer) ["yes"; "y"]);
    apply bind_stops; unfold within; rewrite Hpass1;
    match goal with
    | |- context [collect_kreports kraken2 ?db (listdir subs) [] subs] =>
        pose proof (collect_kreports_stops db subdir es Hne Hnoreads Hnoreport
                      (listdir subs) [] subs
                      (lookup_listed subdir subs _ Hsub) Hsub) as Hstop;
        destruct (collect_kreports kraken2 db (listdir subs) [] subs)
          as [[r sub'] ev]; exact Hstop
    end.
Qed.

(** Where [run_kraken] finds read files it first copies them into the
    combined-read file. *)
Lemma run_kraken_starts_with_copy (title db : string) (d : dir) :
  filter (fun file => endswith file ".fastq.gz") (listdir d) <> [] ->
  exists rest : io unit,
    run_kraken kraken2 title db d
    = (run_kraken_concatenate "concatenated.fastq"
         (filter (fun file => endswith file ".fastq.gz") (listdir d)) ;;;
       rest) d.
Proof.
  intros Hne. unfold run_kraken.
  destruct (filter _ (listdir d)) as [|f l]; [now elim Hne|].
  eexists. reflexivity.
Qed.

End Runner.

(** C10, as the claim states it: a sample directory with entries but no
    read file stops the run.  With a report of an earlier run in it the
    run goes through. *)
Lemma main_reads_stale_report :
  let es := [("barcode02.kreport.txt",
              File ("barcode02" ++ String tab ("1" ++ String newline ""))%string)] in
  let d := [("fastq_pass", Dir [("barcode02", Dir es)])] in
  es <> []
  /\ filter (fun file => endswith file ".fastq.gz") (listdir es) = []
  /\ result (main (fun _ => Failed ParserError) (fun _ => "")
                  (fun (_ : kraken_command) (d0 : dir) => d0) "n" d) = Ok tt.
Proof.
  cbv zeta. split; [discriminate|]. split; reflexivity.
Qed.

Lemma main_stops_without_reads_witness :
  let tool := fun (_ : kraken_command) (d : dir) => d in
  let es := [("notes.txt", File "")] in
  let subs := [("barcode02", Dir es)] in
  (forall db,
      run_kraken tool "barcode02" db es
      = (Ok tt, es, [Print "No fastq.gz files found in barcode02"]))
  /\ (forall db,
         read ["barcode02"; "barcode02.kreport.txt"]
              (files (within "barcode02" (run_kraken tool "barcode02" db) subs))
         = (Failed FileNotFoundError,
            files (within "barcode02" (run_kraken tool "barcode02" db) subs), []))
  /\ is_ok (result (main (fun _ => Failed ParserError) (fun _ => "") tool "n"
                         [("fastq_pass", Dir subs)])) = false.
Proof.
  cbv zeta.
  apply (main_stops_without_reads
           (fun _ => Failed ParserError) (fun _ => "")
           (fun (_ : kraken_command) (d : dir) => d)
           "n" "barcode02"
           [("fastq_pass", Dir [("barcode02", Dir [("notes.txt", File "")])])]
           [("barcode02", Dir [("notes.txt", File "")])]
           [("notes.txt", File "")]).
  - reflexivity.
  - reflexivity.
  - discriminate.
  - intros name [<-|[]]. reflexivity.
  - reflexivity.
Defined.

(** In a directory without subdirectories and without hidden fragments
    the recursive search finds the fragments of the directory itself. *)
Lemma rglob_flat (suffix : string) (d : dir) :
  (forall name child, In (name, child) d -> is_dir child = false) ->
  (forall name, In name (listdir d) -> endswith name suffix = true ->
                hidden name = false) ->
  rglob suffix d
  = map (fun name => [name]) (filter (fun file => endswith file suffix) (listdir d)).
Proof.
  intros Hflat Hvisible. unfold rglob. cbn [rglob_node].
  assert (Hsub : flat_map (fun e : string * node =>
                   let '(name, child) := e in
                   if hidden name then []
                   else map (cons name) (rglob_node suffix child)) d = []).
  { clear Hvisible. induction d as [|[n c] d IH]; [reflexivity|].
    cbn [flat_map]. rewrite IH by (intros; eapply Hflat; right; eassumption).
    pose proof (Hflat n c (or_introl eq_refl)) as Hc.
    destruct c; [|discriminate]. cbn [rglob_node map]. now destruct (hidden n). }
  rewrite Hsub, app_nil_r. clear Hsub Hflat.
  induction d as [|[n c] d IH]; [reflexivity|].
  cbn [listdir map filter fst].
  assert (Hd : forall name, In name (listdir d) -> endswith name suffix = true ->
                            hidden name = false)
    by (intros; apply Hvisible; [right|]; assumption).
  unfold match_suffix at 1.
  destruct (endswith n suffix) eqn:E.
  - rewrite (Hvisible n (or_introl eq_refl) E). cbn [negb andb map fst].
    f_equal. apply IH, Hd.
  - rewrite andb_false_r. apply IH, Hd.
Qed.

(** C4, as the claim states it: the runner's aggregation behaves as the
    read aggregator does.  It neither searches subdirectories nor keeps
    a combined-read file that is already there. *)
Lemma runner_aggregation_differs :
  let out := "concatenated.fastq" in
  let reads := fun d : dir => filter (fun file => endswith file ".fastq.gz") (listdir d) in
  let nested := [("a.fastq.gz", File "AA");
                 ("pass", Dir [("b.fastq.gz", File "BB")])] in
  let cached := [("concatenated.fastq", File "OLD"); ("a.fastq.gz", File "AA")] in
  lookup out (files (concatenate_fastq nested)) = Some (File "AABB")
  /\ lookup out (files (run_kraken_concatenate out (reads nested) nested))
     = Some (File "AA")
  /\ lookup out (files (concatenate_fastq cached)) = Some (File "OLD")
  /\ lookup out (files (run_kraken_concatenate out (reads cached) cached))
     = Some (File "AA").
Proof.
  cbv zeta. repeat split.
Qed.

(** C4, amended. The runner has an aggregation of its own: it copies the
    entries of the sample directory itself whose names end in
    [.fastq.gz], and it always creates the combined-read file anew.  It
    does what the read aggregator does on a directory without
    subdirectories that holds at least one fragment, no hidden fragment
    and no combined-read file. *)
Theorem runner_aggregation_on_flat_directory :
  (forall d : dir,
      path_exists "concatenated.fastq" d = false ->
      (forall name child, In (name, child) d -> is_dir child = false) ->
      (forall name, In name (listdir d) -> endswith name ".fastq.gz" = true ->
                    hidden name = false) ->
      filter (fun file => endswith file ".fastq.gz") (listdir d) <> [] ->
      concatenate_fastq d
      = run_kraken_concatenate "concatenated.fastq"
          (filter (fun file => endswith file ".fastq.gz") (listdir d)) d)
  /\ (forall (fastq_files : list string) (d : dir),
         (forall sub, lookup "concatenated.fastq" d <> Some (Dir sub)) ->
         exists rest,
           events (run_kraken_concatenate "concatenated.fastq" fastq_files d)
           = Create "concatenated.fastq" :: rest).
Proof.
  split.
  - intros d Hnew Hflat Hvisible _.
    unfold concatenate_fastq, run_kraken_concatenate.
    unfold FS.bind at 1, exists_. rewrite Hnew.
    rewrite (rglob_flat ".fastq.gz" d Hflat Hvisible), for_each_map.
    match goal with
    | |- context [FS.bind ?m ?k d] => destruct (FS.bind m k d) as [[r d2] ev2]
    end.
    reflexivity.
  - intros fastq_files d Hfile.
    unfold run_kraken_concatenate, FS.bind at 1, open_wb.
    destruct (lookup "concatenated.fastq" d) as [[c|sub]|] eqn:Hl.
    + destruct (for_each _ _ _) as [[r d2] ev2]. now exists ev2.
    + now elim (Hfile sub).
    + destruct (for_each _ _ _) as [[r d2] ev2]. now exists ev2.
Qed.

Lemma runner_aggregation_on_flat_directory_witness :
  concatenate_fastq
    [("a.fastq.gz", File "AA"); ("b.fastq.gz", File "BB"); ("notes.txt", File "")]
  = run_kraken_concatenate "concatenated.fastq" ["a.fastq.gz"; "b.fastq.gz"]
      [("a.fastq.gz", File "AA"); ("b.fastq.gz", File "BB"); ("notes.txt", File "")].
Proof.
  apply (proj1 runner_aggregation_on_flat_directory
           [("a.fastq.gz", File "AA"); ("b.fastq.gz", File "BB");
            ("notes.txt", File "")]).
  - reflexivity.
  - intros name child [[= <- <-]|[[= <- <-]|[[= <- <-]|[]]]]; reflexivity.
  - intros name [<-|[<-|[<-|[]]]] _; reflexivity.
  - discriminate.
Defined.

End RunnerFacts.

(* ================================================================== *)
(** * Further properties of coverage.py: reference lookup and depth table *)

Module CoverageMore.
Import Py.
Import Coverage.
Import CoverageFacts.

Lemma two_members {A : Type} (l : list A) (a b : A) :
  In a l -> In b l -> a <> b -> exists u v rest, l = u :: v :: rest.
Proof.
  intros Ha Hb Hne. destruct l as [|u [|v rest]].
  - now elim Ha.
  - destruct Ha as [<-|[]]. destruct Hb as [<-|[]]. now elim Hne.
  - now exists u, v, rest.
Qed.

(** X1. [find_reference_fasta] raises by its own guards: with no
    candidate name in the listing a [FileNotFoundError], with two
    different candidate names a [ValueError]. *)
Theorem find_reference_fasta_errors :
  (forall listdir : listing,
      (forall file, In file listdir -> is_reference_name file = false) ->
      find_reference_fasta listdir
      = Raised FileNotFoundError
          "No reference fasta file found in the specified directory.")
  /\ (forall (listdir : listing) (file other : string),
         In file listdir -> In other listdir -> file <> other ->
         is_reference_name file = true -> is_reference_name other = true ->
         find_reference_fasta listdir
         = Raised ValueError
             "Multiple reference fasta files found. Please ensure only one reference file is present.").
Proof.
  split.
  - intros listdir Hnone. unfold find_reference_fasta.
    replace (filter _ listdir) with (@nil string); [reflexivity|].
    symmetry. induction listdir as [|f l IH]; [reflexivity|].
    cbn [filter]. fold (is_reference_name f).
    rewrite (Hnone f (or_introl eq_refl)). apply IH.
    intros; apply Hnone; now right.
  - intros listdir file other Hf Ho Hne Hcf Hco. unfold find_reference_fasta.
    destruct (two_members (filter is_reference_name listdir) file other)
      as (u & v & rest & Heq); try (apply filter_In; split; assumption);
      [exact Hne|].
    unfold is_reference_name in Heq. rewrite Heq.
    unfold len. cbn [List.length].
    destruct (1 <? Z.of_nat (S (S (List.length rest)))) eqn:E; [reflexivity|].
    apply Z.ltb_ge in E. lia.
Qed.

Lemma find_reference_fasta_errors_witness :
  find_reference_fasta ["reads.fastq.gz"; "._ref.fasta"]
  = Raised FileNotFoundError
      "No reference fasta file found in the specified directory."
  /\ find_reference_fasta ["a.fasta"; "notes.txt"; "b.fasta"]
     = Raised ValueError
         "Multiple reference fasta files found. Please ensure only one reference file is present.".
Proof.
  split.
  - apply (proj1 find_reference_fasta_errors).
    intros file [<-|[<-|[]]]; reflexivity.
  - apply (proj2 find_reference_fasta_errors
             ["a.fasta"; "notes.txt"; "b.fasta"] "a.fasta" "b.fasta").
    + now left.
    + right; right; now left.
    + discriminate.
    + reflexivity.
    + reflexivity.
Defined.

(** X2. A name that [find_reference_fasta] returns is in the listing,
    ends in [.fasta], does not start with [._], and is the only such
    name there. *)
Theorem find_reference_fasta_sound :
  forall (listdir : listing) (file : string),
    find_reference_fasta listdir = Ok file ->
    In file listdir
    /\ endswith file ".fasta" = true
    /\ startswith file "._" = false
    /\ forall other, In other listdir -> is_reference_name other = true ->
                     other = file.
Proof.
  intros listdir file H. unfold find_reference_fasta in H.
  fold is_reference_name in H.
  change (fun file0 : string => endswith file0 ".fasta" && negb (startswith file0 "._"))
    with is_reference_name in H.
  destruct (filter is_reference_name listdir) as [|f [|g rest]] eqn:Hf;
    try discriminate.
  - cbn in H. injection H as ->.
    assert (Hin : In file (filter is_reference_name listdir))
      by (rewrite Hf; now left).
    apply filter_In in Hin as [Hin Hc].
    unfold is_reference_name in Hc. apply andb_prop in Hc as [He Hs].
    apply negb_true_iff in Hs.
    repeat split; try assumption.
    intros other Ho Hco.
    assert (Hin' : In other (filter is_reference_name listdir))
      by (apply filter_In; split; assumption).
    rewrite Hf in Hin'. destruct Hin' as [<-|[]]. reflexivity.
  - unfold len in H. cbn [List.length] in H.
    destruct (1 <? Z.of_nat (S (S (List.length rest)))) eqn:E; [discriminate|].
    apply Z.ltb_ge in E. lia.
Qed.

Lemma find_reference_fasta_sound_witness :
  In "ref.fasta" ["._ref.fasta"; "ref.fasta"]
  /\ endswith "ref.fasta" ".fasta" = true
  /\ startswith "ref.fasta" "._" = false
  /\ forall other, In other ["._ref.fasta"; "ref.fasta"] ->
                   is_reference_name other = true -> other = "ref.fasta".
Proof.
  apply (find_reference_fasta_sound ["._ref.fasta"; "ref.fasta"] "ref.fasta").
  reflexivity.
Defined.

End CoverageMore.

(* ================================================================== *)
(** * Further properties of the depth-table reducer *)

Module DepthTableMore.
Import Py.
Import Coverage.
Import CoverageFacts.

Lemma read_line_columns (line : string) (cols : list string) (px py : Z) :
  read_line line = Ok (cols, px, py) -> cols = split tab (strip line).
Proof.
  unfold read_line.
  destruct (index (split tab (strip line)) 1) as [c1| |]; cbn [Py.bind]; try discriminate.
  destruct (int c1) as [vx| |]; cbn [Py.bind]; try discriminate.
  destruct (index (split tab (strip line)) 2) as [c2| |]; cbn [Py.bind]; try discriminate.
  destruct (int c2) as [vy| |]; cbn [Py.bind]; try discriminate.
  now intros [= <- _ _].
Qed.

Lemma read_line_never_raised (line : string) (e : exn) (msg : string) :
  read_line line <> Raised e msg.
Proof.
  unfold read_line.
  destruct (index (split tab (strip line)) 1) as [c1| |] eqn:E1; cbn [Py.bind];
    [|unfold index in E1; destruct (nth_error _ 1); discriminate | discriminate].
  destruct (int c1) as [vx| |] eqn:E2; cbn [Py.bind];
    [|unfold int in E2; destruct (match strip c1 with EmptyString => _ | _ => _ end);
      discriminate | discriminate].
  destruct (index (split tab (strip line)) 2) as [c2| |] eqn:E3; cbn [Py.bind];
    [|unfold index in E3; destruct (nth_error _ 2); discriminate | discriminate].
  destruct (int c2) as [vy| |] eqn:E4; cbn [Py.bind];
    [discriminate
    |unfold int in E4; destruct (match strip c2 with EmptyString => _ | _ => _ end);
      discriminate | discriminate].
Qed.

(** The columns that stay bound after the loop: those of the last line. *)
Lemma read_lines_last (lines : list string) (rows : list (Z * Z)) :
  Forall2 line_has lines rows ->
  forall data columns,
    read_lines lines data columns
    = Ok ({| x := x data ++ map fst rows; y := y data ++ map snd rows |},
          fold_left (fun _ line => Some (split tab (strip line))) lines columns).
Proof.
  induction 1 as [|line row lines rows Hline _ IH]; intros data columns.
  - simpl. rewrite !app_nil_r. now destruct data.
  - destruct Hline as [cols Hcols]. cbn [read_lines fold_left].
    rewrite Hcols. cbn [Py.bind].
    rewrite IH. cbn [x y map]. rewrite <- !app_assoc.
    now rewrite (read_line_columns _ _ _ _ Hcols).
Qed.


Lemma read_lines_split (good rest : list string) (rows : list (Z * Z)) :
  Forall2 line_has good rows ->
  forall data columns,
    read_lines (good ++ rest) data columns
    = read_lines rest
        {| x := x data ++ map fst rows; y := y data ++ map snd rows |}
        (fold_left (fun _ line => Some (split tab (strip line))) good columns).
Proof.
  induction 1 as [|line row lines rows Hline _ IH]; intros data columns.
  - simpl. rewrite !app_nil_r. now destruct data.
  - destruct Hline as [cols Hcols]. cbn [app read_lines fold_left].
    rewrite Hcols. cbn [Py.bind]. rewrite IH. cbn [x y map].
    rewrite <- !app_assoc. now rewrite (read_line_columns _ _ _ _ Hcols).
Qed.

Lemma ratio_bounds (k n : Z) :
  0 <= k <= n -> 0 < n -> (0 <= inject_Z k / inject_Z n <= 1)%Q.
Proof.
  intros [Hk Hkn] Hn.
  assert (Hn' : (0 < inject_Z n)%Q)
    by (change 0%Q with (inject_Z 0); now rewrite <- Zlt_Qlt).
  split.
  - apply Qle_shift_div_l; [exact Hn'|]. rewrite Qmult_0_l.
    change 0%Q with (inject_Z 0). now rewrite <- Zle_Qle.
  - apply Qle_shift_div_r; [exact Hn'|]. rewrite Qmult_1_l. now rewrite <- Zle_Qle.
Qed.




(** What [plot_coverage] returns for a table of rows. *)
Lemma plot_coverage_of_rows (lines : list string) (rows : list (Z * Z)) :
  lines <> [] ->
  Forall2 line_has lines rows ->
  exists name,
    fold_left (fun _ line => index (split tab (strip line)) 0) lines
              (Failed UnboundLocalError) = Ok name
    /\ plot_coverage lines
       = Ok {| horizontal_coverage :=
                 (inject_Z (len (covered rows)) / inject_Z (len rows))%Q;
               vertical_coverage :=
                 (inject_Z (total_depth rows) / inject_Z (len rows))%Q;
               plot_x := map fst rows;
               plot_y := map snd rows;
               title_name := name;
               title_nt := len rows |}.
Proof.
  intros Hne Hrows.
  assert (Hlen : List.length rows = List.length lines)
    by (symmetry; eapply Forall2_length; eassumption).
  assert (Hpos : (len (map snd rows) =? 0) = false).
  { unfold len. rewrite length_map, Hlen. apply Z.eqb_neq.
    destruct lines; [now elim Hne | simpl; lia]. }
  destruct (read_lines_rows lines rows Hrows {| x := []; y := [] |} None)
    as (last & Hrun & _ & Hlast).
  rewrite (read_lines_last lines rows Hrows) in Hrun. injection Hrun as Hl.
  destruct (Hlast Hne) as (c0 & c1 & more & ->).
  exists c0. split.
  - clear - Hl Hne. revert Hl. generalize (@None (list string)).
    generalize (@Failed string UnboundLocalError).
    induction lines as [|line lines IH]; [now elim Hne|].
    intros o0 s0 Hl. cbn [fold_left] in *.
    destruct lines as [|l2 lines].
    + cbn [fold_left] in *. injection Hl as ->. reflexivity.
    + apply (IH ltac:(discriminate) _ _ Hl).
  - unfold plot_coverage.
    rewrite (read_lines_last lines rows Hrows), Hl. cbn [Py.bind x y app].
    unfold truediv. rewrite Hpos. cbn [Py.bind index nth_error].
    rewrite filter_depths, sum_ones.
    unfold len, sum, total_depth. rewrite sum_from, !length_map, Z.add_0_l.
    reflexivity.
Qed.






(** X5. A line that cannot be read stops [plot_coverage] with the
    exception of that line, whatever follows it, once the lines before
    it have been read; a line of white space only (a blank line) is such
    a line and gives an [IndexError]. *)
Theorem plot_coverage_bad_line :
  (forall (good rest : list string) (bad : string) (rows : list (Z * Z)) (e : exn),
      Forall2 line_has good rows ->
      read_line bad = Failed e ->
      plot_coverage (good ++ bad :: rest) = Failed e)
  /\ (forall (good rest : list string) (blank : string) (rows : list (Z * Z)),
         Forall2 line_has good rows ->
         strip blank = "" ->
         plot_coverage (good ++ blank :: rest) = Failed IndexError).
Proof.
  assert (Hbad : forall good rest bad rows e,
             Forall2 line_has good rows -> read_line bad = Failed e ->
             plot_coverage (good ++ bad :: rest) = Failed e).
  { intros good rest bad rows e Hgood Hb. unfold plot_coverage.
    rewrite (read_lines_split good (bad :: rest) rows Hgood).
    cbn [read_lines]. rewrite Hb. reflexivity. }
  split; [exact Hbad|].
  intros good rest blank rows Hgood Hblank.
  apply (Hbad good rest blank rows IndexError Hgood).
  unfold read_line. rewrite Hblank. reflexivity.
Qed.

Lemma plot_coverage_bad_line_witness :
  plot_coverage (["chr1" ++ String tab ("1" ++ String tab "5")]%string
                   ++ "chr1" :: [])
  = Failed IndexError
  /\ plot_coverage (["chr1" ++ String tab ("1" ++ String tab "5")]%string
                      ++ String newline "" :: [])
     = Failed IndexError.
Proof.
  split.
  - apply (proj1 plot_coverage_bad_line _ _ _ [(1, 5)]).
    + repeat constructor. eexists. vm_compute. reflexivity.
    + reflexivity.
  - apply (proj2 plot_coverage_bad_line _ _ _ [(1, 5)]).
    + repeat constructor. eexists. vm_compute. reflexivity.
    + reflexivity.
Defined.



End DepthTableMore.

(* ================================================================== *)
(** * Reading the text of the depth tool *)

Module TableTextFacts.
Import Py.
Import Coverage.

Lemma lstrip_no_space (s : string) : no_space s = true -> lstrip s = s.
Proof.
  destruct s as [|c t]; [reflexivity|]. cbn [no_space lstrip].
  intros H. apply andb_prop in H as [Hc _]. apply negb_true_iff in Hc.
  now rewrite Hc.
Qed.

Lemma rstrip_no_space (s : string) : no_space s = true -> rstrip s = s.
Proof.
  induction s as [|c t IH]; [reflexivity|]. cbn [no_space rstrip].
  intros H. apply andb_prop in H as [Hc Ht]. apply negb_true_iff in Hc.
  rewrite (IH Ht), Hc. now destruct t.
Qed.

Lemma rstrip_app (a b : string) :
  rstrip (a ++ b)
  = match rstrip b with
    | EmptyString => rstrip a
    | String _ _ => (a ++ rstrip b)%string
    end.
Proof.
  induction a as [|c a IH]; cbn [append rstrip].
  - now destruct (rstrip b).
  - rewrite IH. destruct (rstrip b) as [|c' b'] eqn:E; [reflexivity|].
    now destruct a.
Qed.

Lemma append_assoc' (a b c : string) :
  ((a ++ b) ++ c = a ++ (b ++ c))%string.
Proof.
  induction a as [|x a IH]; [reflexivity|]. cbn [append]. now rewrite IH.
Qed.

Lemma append_cut (a : string) (c : ascii) (s : string) :
  (a ++ String c s = (a ++ String c "") ++ s)%string.
Proof. now rewrite append_assoc'. Qed.


Lemma no_space_app (a b : string) :
  no_space (a ++ b) = no_space a && no_space b.
Proof.
  induction a as [|c a IH]; [reflexivity|]. cbn [append no_space].
  now rewrite IH, andb_assoc.
Qed.

Lemma split_at_sep (sep : ascii) (a rest : string) :
  (forall c, In c (list_ascii_of_string a) -> c <> sep) ->
  split sep (a ++ String sep rest) = a :: split sep rest.
Proof.
  induction a as [|c a IH]; intros Hno; cbn [append split].
  - now rewrite Ascii.eqb_refl.
  - assert (Hc : Ascii.eqb c sep = false)
      by (apply Ascii.eqb_neq, Hno; now left).
    rewrite Hc, IH; [reflexivity|]. intros c' Hc'. apply Hno. now right.
Qed.

Lemma split_no_sep (sep : ascii) (a : string) :
  (forall c, In c (list_ascii_of_string a) -> c <> sep) ->
  split sep a = [a].
Proof.
  induction a as [|c a IH]; intros Hno; cbn [split]; [reflexivity|].
  assert (Hc : Ascii.eqb c sep = false)
    by (apply Ascii.eqb_neq, Hno; now left).
  rewrite Hc, IH; [reflexivity|]. intros c' Hc'. apply Hno. now right.
Qed.

Lemma no_space_no_tab (s : string) :
  no_space s = true -> forall c, In c (list_ascii_of_string s) -> c <> tab.
Proof.
  induction s as [|c0 t IH]; cbn [no_space list_ascii_of_string]; [intros _ c []|].
  intros H c [<-|Hin].
  - apply andb_prop in H as [Hc _]. intros ->. discriminate.
  - apply andb_prop in H as [_ Ht]. now apply IH.
Qed.

Lemma digit_cases (P : nat -> Prop) :
  P 0%nat -> P 1%nat -> P 2%nat -> P 3%nat -> P 4%nat -> P 5%nat -> P 6%nat ->
  P 7%nat -> P 8%nat -> P 9%nat ->
  forall d, (d <= 9)%nat -> P d.
Proof.
  intros H0 H1 H2 H3 H4 H5 H6 H7 H8 H9 d Hd.
  do 10 (destruct d as [|d]; [assumption|]). lia.
Qed.

Lemma digit_val_char (d : nat) :
  (d <= 9)%nat -> digit_val (digit_char d) = Some (Z.of_nat d).
Proof. revert d. apply digit_cases; reflexivity. Qed.

Lemma digit_char_no_space (d : nat) :
  (d <= 9)%nat -> is_space (digit_char d) = false.
Proof. revert d. apply digit_cases; reflexivity. Qed.

Lemma numeral_no_space (digits : list nat) :
  Forall (fun d => (d <= 9)%nat) digits -> no_space (numeral digits) = true.
Proof.
  induction 1 as [|d digits Hd _ IH]; [reflexivity|].
  cbn [numeral no_space]. now rewrite (digit_char_no_space d Hd), IH.
Qed.

Lemma int_digits_numeral (digits : list nat) :
  Forall (fun d => (d <= 9)%nat) digits ->
  forall acc,
    int_digits (numeral digits) acc true
    = Some (fold_left (fun a d => 10 * a + Z.of_nat d) digits acc).
Proof.
  induction 1 as [|d digits Hd _ IH]; intros acc; [reflexivity|].
  cbn [numeral int_digits fold_left]. rewrite (digit_val_char d Hd). apply IH.
Qed.

(** [int] reads a decimal numeral as its value. *)
Lemma int_numeral (digits : list nat) :
  digits <> [] ->
  Forall (fun d => (d <= 9)%nat) digits ->
  int (numeral digits) = Ok (numeral_value digits).
Proof.
  intros Hne Hall. unfold int, strip.
  rewrite (lstrip_no_space _ (numeral_no_space _ Hall)).
  rewrite (rstrip_no_space _ (numeral_no_space _ Hall)).
  destruct digits as [|d digits]; [now elim Hne|].
  pose proof (Forall_inv Hall) as Hd. pose proof (Forall_inv_tail Hall) as Ht.
  assert (Hbody : int_digits (numeral (d :: digits)) 0 false
                  = Some (numeral_value (d :: digits))).
  { cbn [numeral int_digits]. rewrite (digit_val_char d Hd).
    rewrite (int_digits_numeral digits Ht). reflexivity. }
  set (v := numeral_value (d :: digits)) in *. clearbody v.
  cbn [numeral] in *. revert Hbody. generalize (numeral digits).
  clear Hne Hall Ht. revert d Hd.
  apply (digit_cases (fun d => forall s : string,
           int_digits (String (digit_char d) s) 0 false = Some v ->
           match
             match String (digit_char d) s with
             | String "+" t => int_digits t 0 false
             | String "-" t => option_map Z.opp (int_digits t 0 false)
             | t => int_digits t 0 false
             end
           with
           | Some z => Ok z
           | None => Failed ValueError
           end = Ok v));
    intros s Hbody; cbn; cbn in Hbody; now rewrite Hbody.
Qed.



End TableTextFacts.

(* ================================================================== *)
(** * The metrics of the depth table, in binary64 *)

Module Binary64Facts.
Import Py.

Lemma round_half_even_le (q : Q) (n : Z) :
  (q <= inject_Z n)%Q -> round_half_even q <= n.
Proof.
  intros H. pose proof (PandasFacts.round_half_even_near q) as [_ Hhi].
  assert (Hlt : (inject_Z (round_half_even q) < inject_Z (n + 1))%Q).
  { rewrite inject_Z_plus. change (inject_Z 1) with 1%Q. lra. }
  rewrite <- Zlt_Qlt in Hlt. lia.
Qed.

Lemma round_half_even_ge (q : Q) (n : Z) :
  (inject_Z n <= q)%Q -> n <= round_half_even q.
Proof.
  intros H. pose proof (PandasFacts.round_half_even_near q) as [Hlo _].
  assert (Hlt : (inject_Z (n - 1) < inject_Z (round_half_even q))%Q).
  { unfold Z.sub. rewrite inject_Z_plus, inject_Z_opp. change (inject_Z 1) with 1%Q. lra. }
  rewrite <- Zlt_Qlt in Hlt. lia.
Qed.

Lemma two_power_1024_above_one : (1 < two_power 1024)%Q.
Proof. reflexivity. Qed.

Lemma ilog2_unit (q : Q) : (0 < q)%Q -> (q <= 1)%Q -> ilog2 q <= 0.
Proof.
  intros Hpos Hle. unfold ilog2.
  assert (Hnum : Qnum q <= Zpos (Qden q)).
  { unfold Qle in Hle. cbn in Hle. lia. }
  pose proof (Z.log2_le_mono _ _ Hnum).
  destruct (Qle_bool _ q); lia.
Qed.

(** A quotient between 0 and 1 has a float nearest to it, between 0
    and 1 as well. *)
Lemma round_binary64_unit (q : Q) :
  (0 <= q <= 1)%Q ->
  exists r, round_binary64 q = Some r /\ (0 <= r <= 1)%Q.
Proof.
  intros [Hlo Hhi]. unfold round_binary64.
  destruct (Qcompare q 0) eqn:Hc.
  - exists 0%Q. split; [reflexivity | split; lra].
  - apply Qlt_alt in Hc. lra.
  - apply Qgt_alt in Hc. unfold round_binary64_pos.
    pose proof (ilog2_unit q Hc Hhi) as He.
    destruct (Z.max (ilog2 q - 52) (- 1074)) as [|e|e] eqn:Hmax; [lia | lia |].
    change (two_power (Z.neg e)) with (1 # 2 ^ e).
    set (m := round_half_even (q / (1 # 2 ^ e))).
    assert (Hscaled : (q / (1 # 2 ^ e) == q * inject_Z (Zpos (2 ^ e)))%Q).
    { unfold Qdiv. apply Qmult_comp; [reflexivity|]. reflexivity. }
    assert (Hpow : (0 < inject_Z (Zpos (2 ^ e)))%Q) by reflexivity.
    assert (Hm0 : 0 <= m).
    { apply round_half_even_ge. rewrite Hscaled. change (inject_Z 0) with 0%Q. nra. }
    assert (Hm1 : m <= Zpos (2 ^ e)).
    { apply round_half_even_le. rewrite Hscaled. nra. }
    assert (Hr : (0 <= inject_Z m * (1 # 2 ^ e) <= 1)%Q).
    { unfold Qle, Qmult, inject_Z. cbn [Qnum Qden]. split; nia. }
    destruct (Qle_bool (two_power 1024) (inject_Z m * (1 # 2 ^ e))) eqn:Hover.
    + apply Qle_bool_iff in Hover. pose proof two_power_1024_above_one. lra.
    + eexists. split; [reflexivity|]. rewrite Qred_correct. exact Hr.
Qed.

End Binary64Facts.

Module CoverageBinary64.
Import Py.
Import Coverage.
Import CoverageFacts.
Import DepthTableMore.
Import TableTextFacts.

Lemma graphic_no_space (s : string) : graphic s = true -> no_space s = true.
Proof.
  induction s as [|c s IH]; [reflexivity|]. cbn [graphic no_space].
  intros H. apply andb_prop in H as [Hc Hs]. rewrite (IH Hs), andb_true_r.
  clear - Hc. destruct c as [[] [] [] [] [] [] [] []];
    vm_compute in Hc |- *; congruence.
Qed.

Lemma lstrip_blanks (lead s : string) :
  blanks lead = true -> lstrip (lead ++ s) = lstrip s.
Proof.
  induction lead as [|c lead IH]; [reflexivity|]. cbn [blanks append lstrip].
  intros H. apply andb_prop in H as [Hc Hl].
  assert (Hs : is_space c = true).
  { apply orb_prop in Hc as [Hc|Hc]; apply Ascii.eqb_eq in Hc; now subst c. }
  rewrite Hs. now apply IH.
Qed.

Lemma rstrip_blanks (trail : string) :
  blanks trail = true -> rstrip (trail ++ String newline "") = "".
Proof.
  induction trail as [|c trail IH]; [reflexivity|]. cbn [blanks append rstrip].
  intros H. apply andb_prop in H as [Hc Hl]. rewrite (IH Hl).
  apply orb_prop in Hc as [Hc|Hc]; apply Ascii.eqb_eq in Hc; now subst c.
Qed.

(** What the reading loop takes from a line of the table. *)
Lemma text_line_read (t : text_row) :
  printed_line t ->
  read_line (text_line t)
  = Ok ([row_name (line_row t); numeral (snd (fst (line_row t)));
         numeral (snd (line_row t))],
        row_position (line_row t), row_depth (line_row t)).
Proof.
  intros (Hlead & (Hname & Hg & Hpne & Hp & _ & Hdne & Hd & _) & Htrail).
  destruct t as [[lead [[name position] depth]] trail].
  unfold text_line, line_row, row_name, row_position, row_depth in *.
  cbn [fst snd] in *.
  pose proof (graphic_no_space name Hg) as Hns.
  pose proof (numeral_no_space position Hp) as Hps.
  pose proof (numeral_no_space depth Hd) as Hds.
  assert (Hcut : (name ++ String tab (numeral position ++ String tab (numeral depth))
                  = (name ++ String tab (numeral position ++ String tab ""))
                    ++ numeral depth)%string).
  { rewrite append_assoc'. cbn [append]. rewrite append_assoc'. reflexivity. }
  unfold read_line, strip.
  rewrite (lstrip_blanks lead _ Hlead).
  replace (lstrip ((name ++ String tab (numeral position ++ String tab (numeral depth)))
                   ++ trail ++ String newline ""))
    with ((name ++ String tab (numeral position ++ String tab (numeral depth)))
          ++ trail ++ String newline "")%string.
  2: { destruct name as [|c n]; [now elim Hname|].
       cbn [append lstrip]. cbn [no_space] in Hns.
       apply andb_prop in Hns as [Hc _]. apply negb_true_iff in Hc. now rewrite Hc. }
  assert (Hstrip : rstrip ((name ++ String tab (numeral position
                                        ++ String tab (numeral depth)))
                           ++ trail ++ String newline "")
                   = (name ++ String tab (numeral position
                                          ++ String tab (numeral depth)))%string).
  { rewrite rstrip_app, (rstrip_blanks trail Htrail).
    rewrite Hcut, rstrip_app, (rstrip_no_space _ Hds).
    destruct depth; [now elim Hdne | reflexivity]. }
  rewrite Hstrip.
  rewrite (split_at_sep tab name _ (no_space_no_tab name Hns)).
  rewrite (split_at_sep tab (numeral position) _ (no_space_no_tab _ Hps)).
  rewrite (split_no_sep tab (numeral depth) (no_space_no_tab _ Hds)).
  cbn [index nth_error Py.bind].
  rewrite (int_numeral position Hpne Hp). cbn [Py.bind].
  rewrite (int_numeral depth Hdne Hd). reflexivity.
Qed.

(** What [plot_coverage64] does with a table of rows. *)
Lemma plot_coverage64_of_rows (lines : list string) (rows : list (Z * Z)) :
  lines <> [] ->
  Forall2 line_has lines rows ->
  exists name,
    fold_left (fun _ line => index (split tab (strip line)) 0) lines
              (Failed UnboundLocalError) = Ok name
    /\ plot_coverage64 lines
       = (h <- truediv64 (len (covered rows)) (len rows) ;;
          v <- truediv64 (total_depth rows) (len rows) ;;
          Ok {| horizontal_coverage := h;
                vertical_coverage := v;
                plot_x := map fst rows;
                plot_y := map snd rows;
                title_name := name;
                title_nt := len rows |}).
Proof.
  intros Hne Hrows.
  destruct (plot_coverage_of_rows lines rows Hne Hrows) as (name & Hname & _).
  exists name. split; [exact Hname|].
  destruct (read_lines_rows lines rows Hrows {| x := []; y := [] |} None)
    as (last & Hrun & _ & Hlast).
  rewrite (read_lines_last lines rows Hrows) in Hrun. injection Hrun as Hl.
  destruct (Hlast Hne) as (c0 & c1 & more & ->).
  assert (Hc0 : name = c0).
  { clear - Hl Hne Hname. revert Hl Hname. generalize (@None (list string)).
    generalize (@Failed string UnboundLocalError).
    induction lines as [|line lines IH]; [now elim Hne|].
    intros o0 s0 Hl Hname. cbn [fold_left] in *.
    destruct lines as [|l2 lines].
    - cbn [fold_left] in *. injection Hl as Hl. rewrite Hl in Hname.
      cbn in Hname. now injection Hname.
    - apply (IH ltac:(discriminate) _ _ Hl Hname). }
  subst name.
  unfold plot_coverage64.
  rewrite (read_lines_last lines rows Hrows), Hl. cbn [Py.bind x y app].
  rewrite filter_depths, sum_ones.
  unfold len, sum, total_depth. rewrite sum_from, !length_map, Z.add_0_l.
  reflexivity.
Qed.

(** C1, as the claim states it: for every table the two quotients are
    computed.  The quotient of a table with one row of depth 10^400 has
    no float, and the division raises. *)
Lemma plot_coverage64_overflow :
  let line : text_row := ("", ("chr1", [1%nat], 1%nat :: repeat 0%nat 400), "") in
  printed_line line
  /\ row_depth (line_row line) = 10 ^ 400
  /\ plot_coverage64 [text_line line] = Failed OverflowError
  /\ forall p, plot_coverage64 [text_line line] <> Ok p.
Proof.
  cbv zeta.
  assert (Hrun : plot_coverage64
                   [text_line ("", ("chr1", [1%nat], 1%nat :: repeat 0%nat 400), "")]
                 = Failed OverflowError) by (vm_compute; reflexivity).
  split; [|split; [vm_compute; reflexivity | split; [exact Hrun|]]].
  - unfold printed_line, printed_row, line_row, row_name. cbn [fst snd].
    split; [reflexivity|]. split; [|reflexivity].
    split; [discriminate|]. split; [reflexivity|].
    split; [discriminate|]. split; [repeat constructor|].
    split; [unfold len; cbn [List.length]; lia|].
    split; [discriminate|].
    split.
    + apply Forall_forall. intros d [<-|Hd]; [lia|].
      apply repeat_spec in Hd. subst d. lia.
    + unfold len. cbn [List.length]. rewrite repeat_length. lia.
  - intros p Hp. rewrite Hrun in Hp. discriminate.
Qed.

(** C1, amended. For the text of a depth table that is not empty, with
    N rows of which k have a depth above zero, [plot_coverage] computes
    the horizontal coverage as the float nearest to k/N, which lies
    between 0 and 1, and the vertical coverage as the float nearest to
    sum(depths)/N; it raises [OverflowError] when that quotient is
    beyond the largest float.  It plots the positions against the
    depths, and its title carries the name of the last row and N. *)
Theorem plot_coverage64_of_table :
  forall (lines : list text_row) (last_line : text_row),
    Forall printed_line (lines ++ [last_line]) ->
    let table := map line_row (lines ++ [last_line]) in
    exists h,
      round_binary64
        (inject_Z (len (filter (fun r => 0 <? row_depth r) table))
         / inject_Z (len table))
      = Some h
      /\ (0 <= h <= 1)%Q
      /\ plot_coverage64 (map text_line (lines ++ [last_line]))
         = match round_binary64
                   (inject_Z (fold_right Z.add 0 (map row_depth table))
                    / inject_Z (len table)) with
           | Some v =>
               Ok {| horizontal_coverage := h;
                     vertical_coverage := v;
                     plot_x := map row_position table;
                     plot_y := map row_depth table;
                     title_name := row_name (line_row last_line);
                     title_nt := len table |}
           | None => Failed OverflowError
           end.
Proof.
  intros lines last_line Hall. cbv zeta.
  set (text := lines ++ [last_line]) in *.
  set (table := map line_row text).
  set (values := map (fun r => (row_position r, row_depth r)) table).
  assert (Hrows : Forall2 line_has (map text_line text) values).
  { unfold values, table. clearbody text. induction text as [|t text IH]; [constructor|].
    cbn [map]. constructor.
    - eexists. cbn [fst snd]. apply text_line_read. exact (Forall_inv Hall).
    - apply IH. exact (Forall_inv_tail Hall). }
  assert (Hne : map text_line text <> [])
    by (unfold text; destruct lines; discriminate).
  destruct (plot_coverage64_of_rows _ _ Hne Hrows) as (name & Hname & Hp).
  assert (Hlen : len values = len table)
    by (unfold values, len; now rewrite length_map).
  assert (Hcov : len (covered values) = len (filter (fun r => 0 <? row_depth r) table)).
  { unfold values, covered, len. f_equal. clear.
    induction table as [|r table IH]; [reflexivity|].
    cbn [map filter snd]. destruct (0 <? row_depth r); cbn [List.length]; now rewrite IH. }
  assert (Htot : total_depth values = fold_right Z.add 0 (map row_depth table)).
  { unfold total_depth, values. now rewrite map_map. }
  assert (Hlast_name : name = row_name (line_row last_line)).
  { unfold text in Hname. rewrite map_app, fold_left_app in Hname.
    cbn [map fold_left] in Hname.
    assert (Hlast : printed_line last_line).
    { apply (proj1 (Forall_forall _ _) Hall). apply in_or_app. right. now left. }
    pose proof (text_line_read last_line Hlast) as Hread.
    pose proof (read_line_columns _ _ _ _ Hread) as Hcols.
    rewrite <- Hcols in Hname. cbn in Hname. now injection Hname as <-. }
  rewrite Hlen, Hcov, Htot, Hlast_name in Hp. unfold values in Hp.
  rewrite !map_map in Hp. cbn [fst snd] in Hp.
  assert (Hn : 0 < len table).
  { unfold len, table, text. rewrite length_map, length_app. cbn [List.length]. lia. }
  assert (Hk : 0 <= len (filter (fun r => 0 <? row_depth r) table) <= len table).
  { unfold len. split; [lia|]. apply inj_le, filter_length_le. }
  destruct (Binary64Facts.round_binary64_unit _ (ratio_bounds _ _ Hk Hn))
    as (h & Hh & Hbounds).
  exists h. split; [exact Hh|]. split; [exact Hbounds|].
  rewrite Hp. unfold truediv64.
  assert (Hpos : (len table =? 0) = false) by (apply Z.eqb_neq; lia).
  rewrite Hpos, Hh. cbn [Py.bind].
  destruct (round_binary64
              (inject_Z (fold_right Z.add 0 (map row_depth table))
               / inject_Z (len table))); reflexivity.
Qed.

Lemma plot_coverage64_of_table_witness :
  let lines : list text_row :=
    [(" ", ("chr1", [1%nat], [1; 2]%nat), "")] in
  let last_line : text_row := ("", ("chr1", [2%nat], [0%nat]), " ") in
  let table := map line_row (lines ++ [last_line]) in
  exists h,
    round_binary64
      (inject_Z (len (filter (fun r => 0 <? row_depth r) table))
       / inject_Z (len table))
    = Some h
    /\ (0 <= h <= 1)%Q
    /\ plot_coverage64 (map text_line (lines ++ [last_line]))
       = match round_binary64
                 (inject_Z (fold_right Z.add 0 (map row_depth table))
                  / inject_Z (len table)) with
         | Some v =>
             Ok {| horizontal_coverage := h;
                   vertical_coverage := v;
                   plot_x := map row_position table;
                   plot_y := map row_depth table;
                   title_name := row_name (line_row last_line);
                   title_nt := len table |}
         | None => Failed OverflowError
         end.
Proof.
  apply (plot_coverage64_of_table
           [(" ", ("chr1", [1%nat], [1; 2]%nat), "")]
           ("", ("chr1", [2%nat], [0%nat]), " ")).
  repeat constructor; try discriminate; unfold len; cbn; lia.
Defined.

End CoverageBinary64.

(* ================================================================== *)
(** * The median shown in the histograms *)

Module MedianFacts.
Import Py.
Import Pandas.
Import NanoporeMet.






(** What numpy shows for the float nearest to 2.675, which lies below
    2.675: the product with 100 rounds to 267.5, whose nearest even
    integer is 268. *)
Example round_ndigits64_of_2_675 :
  exists m v,
    round_binary64 (2675 # 1000) = Some m
    /\ (m < 2675 # 1000)%Q
    /\ round_binary64 (268 # 100) = Some v
    /\ round_ndigits64 (Finite m) 2 = Floating (Finite v).
Proof.
  eexists. eexists. split; [vm_compute; reflexivity|].
  split; [reflexivity|]. split; vm_compute; reflexivity.
Qed.



End MedianFacts.

(* ================================================================== *)
(** * Further properties of the read aggregator *)

Module AggregatorMore.
Import Py.
Import FS.
Import Coverage.
Import FSFacts.

Lemma put_put (name : string) (v w : node) (d : dir) :
  put name v (put name w d) = put name v d.
Proof.
  induction d as [|[n u] d IH]; cbn [put].
  - now rewrite String.eqb_refl.
  - destruct (String.eqb n name) eqn:E; cbn [put]; rewrite E; [reflexivity|].
    now rewrite IH.
Qed.

Lemma resolve_put_other (out : string) (v : node) (d : dir) (path : list string)
      (c : string) :
  lookup out d = None ->
  resolve path d = Some (File c) ->
  resolve path (put out v d) = Some (File c).
Proof.
  intros Hout Hres. destruct path as [|name rest]; [discriminate|].
  assert (Hne : out <> name).
  { intros <-. cbn [resolve] in Hres. rewrite Hout in Hres.
    destruct rest; discriminate. }
  cbn [resolve] in *. rewrite (lookup_put_other out name v d Hne). exact Hres.
Qed.

Lemma append_empty_r (s : string) : (s ++ "")%string = s.
Proof. induction s as [|c s IH]; [reflexivity | cbn; now rewrite IH]. Qed.

(** The copying loop over fragments that are files, followed by the rest
    of the loop. *)
Lemma copy_loop_prefix (out : string) (d : dir) :
  lookup out d = None ->
  forall (good rest : list (list string)) (contents : list string) (acc : string),
    Forall2 (fun path c => resolve path d = Some (File c)) good contents ->
    for_each (good ++ rest)
      (fun path => data <~ read path ;; write out data) (put out (File acc) d)
    = let '(r, d', ev) :=
        for_each rest (fun path => data <~ read path ;; write out data)
          (put out (File (acc ++ fold_right append "" contents)%string) d) in
      (r, d', map (Write out) contents ++ ev).
Proof.
  intros Hout good rest contents acc Hgood. revert acc.
  induction Hgood as [|path c good contents Hpath _ IH]; intros acc.
  - cbn [app fold_right map]. rewrite append_empty_r.
    now destruct (for_each rest _ _) as [[r d'] ev].
  - cbn [app for_each fold_right map]. unfold FS.bind at 1.
    unfold FS.bind at 1, read.
    rewrite (resolve_put_other out (File acc) d path c Hout Hpath).
    unfold write. rewrite lookup_put_same, put_put.
    rewrite IH.
    replace ((acc ++ c) ++ fold_right append "" contents)%string
      with (acc ++ c ++ fold_right append "" contents)%string
      by (clear; induction acc as [|a acc IHa]; [reflexivity | cbn; now rewrite IHa]).
    now destruct (for_each rest _ _) as [[r d'] ev].
Qed.

Lemma resolve_put_dir (out : string) (v : node) (d sub : dir) (path : list string) :
  lookup out d = None ->
  resolve path d = Some (Dir sub) ->
  exists sub', resolve path (put out v d) = Some (Dir sub').
Proof.
  intros Hout Hres. destruct path as [|name rest].
  - now exists (put out v d).
  - assert (Hne : out <> name).
    { intros <-. cbn [resolve] in Hres. rewrite Hout in Hres.
      destruct rest; discriminate. }
    exists sub. cbn [resolve] in *.
    rewrite (lookup_put_other out name v d Hne). exact Hres.
Qed.

Lemma lookup_absent (name : string) (d : dir) :
  path_exists name d = false -> lookup name d = None.
Proof. unfold path_exists. now destruct (lookup name d). Qed.

(** The call in a directory without a combined-read file: the file is
    created and the copying loop runs. *)
Lemma concatenate_fastq_fresh (d : dir) :
  path_exists "concatenated.fastq" d = false ->
  concatenate_fastq d
  = let '(r, d', ev) :=
      for_each (rglob ".fastq.gz" d)
        (fun path => data <~ read path ;; write "concatenated.fastq" data)
        (put "concatenated.fastq" (File "") d) in
    (r, d', Create "concatenated.fastq" :: ev).
Proof.
  intros Hnew. pose proof (lookup_absent _ _ Hnew) as Hout.
  unfold concatenate_fastq.
  change (FS.bind (exists_ "concatenated.fastq") ?k d)
    with (let '(r, d2, ev2) := k (path_exists "concatenated.fastq" d) d in
          (r, d2, [] ++ ev2)).
  rewrite Hnew. unfold FS.bind at 1, open_wb. rewrite Hout.
  now destruct (for_each _ _ _) as [[r d2] ev2].
Qed.

(** X8. In a directory without a combined-read file, where everything the
    search finds is a file, [concatenate_fastq] returns and leaves a
    combined-read file that holds the bytes of the fragments one after
    another, in the order of the search; it creates that file once and
    writes once per fragment. *)
Theorem concatenate_fastq_content :
  forall (d : dir) (contents : list string),
    path_exists "concatenated.fastq" d = false ->
    Forall2 (fun path c => resolve path d = Some (File c))
            (rglob ".fastq.gz" d) contents ->
    concatenate_fastq d
    = (Ok tt,
       put "concatenated.fastq" (File (fold_right append "" contents)) d,
       Create "concatenated.fastq" :: map (Write "concatenated.fastq") contents).
Proof.
  intros d contents Hnew Hfiles.
  pose proof (lookup_absent _ _ Hnew) as Hout.
  rewrite (concatenate_fastq_fresh d Hnew).
  rewrite <- (app_nil_r (rglob ".fastq.gz" d)).
  rewrite (copy_loop_prefix "concatenated.fastq" d Hout _ [] contents "" Hfiles).
  cbn [for_each ret append app]. now rewrite app_nil_r.
Qed.

Lemma concatenate_fastq_content_witness :
  concatenate_fastq
    [("b.fastq.gz", File "BB");
     ("pass", Dir [("a.fastq.gz", File "AA")]);
     ("notes.txt", File "n")]
  = (Ok tt,
     put "concatenated.fastq" (File (fold_right append "" ["BB"; "AA"]))
       [("b.fastq.gz", File "BB");
        ("pass", Dir [("a.fastq.gz", File "AA")]);
        ("notes.txt", File "n")],
     Create "concatenated.fastq" :: map (Write "concatenated.fastq") ["BB"; "AA"]).
Proof.
  apply concatenate_fastq_content.
  - reflexivity.
  - repeat constructor.
Defined.

(** X9. When the search finds a directory whose name ends in
    [.fastq.gz], [concatenate_fastq] stops there with an
    [IsADirectoryError]; the combined-read file stays behind with the
    fragments copied so far, and the next call takes it for a finished
    one. *)
Theorem concatenate_fastq_directory_fragment :
  forall (d sub : dir) (good rest : list (list string)) (bad : list string)
         (contents : list string),
    path_exists "concatenated.fastq" d = false ->
    rglob ".fastq.gz" d = good ++ bad :: rest ->
    Forall2 (fun path c => resolve path d = Some (File c)) good contents ->
    resolve bad d = Some (Dir sub) ->
    let partial :=
      put "concatenated.fastq" (File (fold_right append "" contents)) d in
    concatenate_fastq d
    = (Failed IsADirectoryError, partial,
       Create "concatenated.fastq" :: map (Write "concatenated.fastq") contents)
    /\ concatenate_fastq partial
       = (Ok tt, partial,
          [Print "Using previously generated concatenated.fastq file."]).
Proof.
  intros d sub good rest bad contents Hnew Hglob Hgood Hbad. cbv zeta.
  pose proof (lookup_absent _ _ Hnew) as Hout.
  split.
  - rewrite (concatenate_fastq_fresh d Hnew), Hglob.
    rewrite (copy_loop_prefix "concatenated.fastq" d Hout good (bad :: rest)
               contents "" Hgood).
    cbn [for_each append]. unfold FS.bind at 1. unfold FS.bind at 1, read.
    destruct (resolve_put_dir "concatenated.fastq"
                (File (fold_right append "" contents)) d sub bad Hout Hbad)
      as [sub' ->].
    cbn [app]. now rewrite app_nil_r.
  - unfold concatenate_fastq, FS.bind, exists_, path_exists.
    now rewrite lookup_put_same.
Qed.

Lemma concatenate_fastq_directory_fragment_witness :
  let d := [("a.fastq.gz", File "AA"); ("old.fastq.gz", Dir []);
            ("b.fastq.gz", File "BB")] in
  let partial := put "concatenated.fastq" (File (fold_right append "" ["AA"])) d in
  concatenate_fastq d
  = (Failed IsADirectoryError, partial,
     Create "concatenated.fastq" :: map (Write "concatenated.fastq") ["AA"])
  /\ concatenate_fastq partial
     = (Ok tt, partial, [Print "Using previously generated concatenated.fastq file."]).
Proof.
  cbv zeta.
  apply (concatenate_fastq_directory_fragment
           [("a.fastq.gz", File "AA"); ("old.fastq.gz", Dir []);
            ("b.fastq.gz", File "BB")]
           [] [["a.fastq.gz"]] [["b.fastq.gz"]] ["old.fastq.gz"] ["AA"]).
  - reflexivity.
  - reflexivity.
  - repeat constructor.
  - reflexivity.
Defined.

Lemma copy_loop_shape (out : string) (d : dir) (paths : list (list string)) :
  forall acc,
  exists acc',
    files (for_each paths (fun path => data <~ read path ;; write out data)
             (put out (File acc) d))
    = put out (File acc') d.
Proof.
  induction paths as [|path paths IH]; intros acc.
  - now exists acc.
  - cbn [for_each]. unfold FS.bind at 1.
    destruct (copy_step out path (put out (File acc) d) acc (lookup_put_same _ _ _))
      as [[data ->]|[e ->]].
    + rewrite put_put. destruct (IH (acc ++ data)%string) as [acc' Hacc'].
      exists acc'. destruct (for_each paths _ _) as [[r d2] ev2]. exact Hacc'.
    + now exists acc.
Qed.

(** X10. [concatenate_fastq] touches no entry of the directory but the
    combined-read file: afterwards the directory is as before, or as
    before with that one file put in, whether the call returns or
    raises. *)
Theorem concatenate_fastq_touches_one_entry :
  forall d : dir,
    files (concatenate_fastq d) = d
    \/ exists content,
        files (concatenate_fastq d) = put "concatenated.fastq" (File content) d.
Proof.
  intros d.
  destruct (path_exists "concatenated.fastq" d) eqn:Hex.
  - left. unfold concatenate_fastq, FS.bind, exists_. now rewrite Hex.
  - right. rewrite (concatenate_fastq_fresh d Hex).
    destruct (copy_loop_shape "concatenated.fastq" d (rglob ".fastq.gz" d) "")
      as [acc' Hacc'].
    exists acc'. destruct (for_each _ _ _) as [[r d2] ev2]. exact Hacc'.
Qed.

(** X11. The recursive search of [concatenate_fastq] returns exactly the
    paths that lead through visible subdirectories to a visible entry
    whose name ends in the suffix; in particular no component of a
    returned path starts with a dot. *)
Theorem rglob_finds_visible_paths :
  forall (suffix : string) (d : dir) (path : list string),
    (In path (rglob suffix d) <-> found suffix d path)
    /\ (In path (rglob suffix d) ->
        Forall (fun name => hidden name = false) path
        /\ endswith (last path "") suffix = true).
Proof.
  assert (Hto : forall suffix path d, In path (rglob suffix d) -> found suffix d path).
  { intros suffix. induction path as [|name rest IH]; intros d Hin;
      unfold rglob in Hin; cbn [rglob_node] in Hin;
      apply in_app_or in Hin as [Hin|Hin].
    - apply in_map_iff in Hin as (e & He & _). discriminate.
    - apply in_flat_map in Hin as ([n c] & _ & Hin).
      destruct (hidden n); [now elim Hin|].
      apply in_map_iff in Hin as (p & Hp & _). discriminate.
    - apply in_map_iff in Hin as ([n c] & He & Hin). cbn [fst] in He.
      injection He as <- <-. apply filter_In in Hin as [Hin Hm].
      now apply (found_here suffix d n c).
    - apply in_flat_map in Hin as ([n c] & Hnc & Hin).
      destruct (hidden n) eqn:Hh; [now elim Hin|].
      apply in_map_iff in Hin as (p & Hp & Hin). injection Hp as -> ->.
      destruct c as [content|sub]; [now elim Hin|].
      apply (found_below suffix d sub name rest Hnc Hh). apply IH. exact Hin. }
  assert (Hfrom : forall suffix d path, found suffix d path -> In path (rglob suffix d)).
  { intros suffix d path H.
    induction H as [d name child Hin Hm|d sub name path Hin Hh _ IH];
      unfold rglob; cbn [rglob_node]; apply in_or_app.
    - left. apply in_map_iff. exists (name, child). split; [reflexivity|].
      apply filter_In. now split.
    - right. apply in_flat_map. exists (name, Dir sub). split; [exact Hin|].
      rewrite Hh. apply in_map. exact IH. }
  assert (Hshape : forall suffix d path, found suffix d path ->
             Forall (fun name => hidden name = false) path
             /\ endswith (last path "") suffix = true).
  { intros suffix d path H.
    induction H as [d name child Hin Hm|d sub name path Hin Hh Hf [IH1 IH2]].
    - unfold match_suffix in Hm. apply andb_prop in Hm as [Hv He].
      apply negb_true_iff in Hv. split; [now repeat constructor | exact He].
    - split; [now constructor|].
      destruct path as [|n2 path]; [inversion Hf | exact IH2]. }
  intros suffix d path. split; [split; [apply Hto | apply Hfrom]|].
  intros Hin. eapply Hshape, Hto, Hin.
Qed.

Lemma rglob_finds_visible_paths_witness :
  Forall (fun name => hidden name = false) ["pass"; "a.fastq.gz"]
  /\ endswith (last ["pass"; "a.fastq.gz"] "") ".fastq.gz" = true.
Proof.
  apply (proj2 (rglob_finds_visible_paths ".fastq.gz"
                  [("pass", Dir [("a.fastq.gz", File "AA")]);
                   (".cache", Dir [("b.fastq.gz", File "BB")])]
                  ["pass"; "a.fastq.gz"])).
  cbn. now left.
Defined.

End AggregatorMore.

(* ================================================================== *)
(** * Further properties of the tagged reports *)

Module ReportFacts.
Import Py.
Import NanoporeMet.
Import TableTextFacts.

Lemma concat_cons (x : string) (l : list string) :
  String.concat "" (x :: l) = (x ++ String.concat "" l)%string.
Proof.
  destruct l as [|y l]; cbn [String.concat].
  - clear. induction x as [|c x IH]; [reflexivity | cbn; f_equal; exact IH].
  - reflexivity.
Qed.

Lemma chars_app (a b : string) (c : ascii) :
  In c (list_ascii_of_string (a ++ b)) ->
  In c (list_ascii_of_string a) \/ In c (list_ascii_of_string b).
Proof.
  induction a as [|x a IH]; cbn [append list_ascii_of_string]; [now right|].
  intros [->|H]; [left; now left|]. destruct (IH H); [left; now right | now right].
Qed.

(** No carriage return is left in a text read in text mode. *)
Lemma universal_newlines_pair (s : string) :
  (forall c, In c (list_ascii_of_string (universal_newlines s)) -> c <> carriage_return)
  /\ (forall a c, In c (list_ascii_of_string (universal_newlines (String a s))) ->
                  c <> carriage_return).
Proof.
  induction s as [|b t [IH1 IH2]].
  - split; [intros c []|]. intros a c. cbn [universal_newlines].
    destruct (Ascii.eqb a carriage_return) eqn:Ea; cbn [list_ascii_of_string].
    + intros [<-|[]]. discriminate.
    + intros [<-|[]]. now apply Ascii.eqb_neq.
  - split; [apply IH2|]. intros a c.
    change (universal_newlines (String a (String b t)))
      with (if Ascii.eqb a carriage_return
            then String newline (if Ascii.eqb b newline then universal_newlines t
                                 else universal_newlines (String b t))
            else String a (universal_newlines (String b t))).
    destruct (Ascii.eqb a carriage_return) eqn:Ea; cbn [list_ascii_of_string].
    + intros [<-|H]; [discriminate|].
      destruct (Ascii.eqb b newline); [now apply IH1 | now apply (IH2 b)].
    + intros [<-|H]; [now apply Ascii.eqb_neq | now apply (IH2 b)].
Qed.

Lemma universal_newlines_id (s : string) :
  (forall c, In c (list_ascii_of_string s) -> c <> carriage_return) ->
  universal_newlines s = s.
Proof.
  induction s as [|c t IH]; [reflexivity|]. intros Hno.
  cbn [universal_newlines].
  assert (Hc : Ascii.eqb c carriage_return = false)
    by (apply Ascii.eqb_neq, Hno; now left).
  rewrite Hc, IH; [reflexivity|]. intros c' Hc'. apply Hno. now right.
Qed.

(** The characters of a line are characters of the text. *)
Lemma keepends_chars (u line : string) (c : ascii) :
  In line (keepends u) ->
  In c (list_ascii_of_string line) -> In c (list_ascii_of_string u).
Proof.
  revert line. induction u as [|c0 t IH]; intros line; [intros []|].
  cbn [keepends list_ascii_of_string].
  destruct (Ascii.eqb c0 newline).
  - intros [<-|Hin] Hc.
    + destruct Hc as [<-|[]]. now left.
    + right. now apply (IH line).
  - destruct (keepends t) as [|h r].
    + intros [<-|[]] [<-|[]]. now left.
    + intros [<-|Hin] Hc.
      * destruct Hc as [<-|Hc]; [now left|]. right. apply (IH h); [now left | exact Hc].
      * right. apply (IH line); [now right | exact Hc].
Qed.

Lemma keepends_prefix (a rest p : string) (ps : list string) :
  (forall c, In c (list_ascii_of_string a) -> c <> newline) ->
  keepends rest = p :: ps ->
  keepends (a ++ rest) = (a ++ p)%string :: ps.
Proof.
  intros Hno Hrest. induction a as [|c a IH]; cbn [append keepends]; [exact Hrest|].
  assert (Hc : Ascii.eqb c newline = false) by (apply Ascii.eqb_neq, Hno; now left).
  rewrite Hc, IH; [reflexivity|]. intros c' Hc'. apply Hno. now right.
Qed.

Section Tagging.

Variable title : string.
Hypothesis title_no_newline :
  forall c, In c (list_ascii_of_string title) -> c <> newline.

Let tag (line : string) : string := (title ++ String tab "" ++ line)%string.

Lemma title_tab_no_newline :
  forall c, In c (list_ascii_of_string (title ++ String tab "")) -> c <> newline.
Proof.
  intros c Hin. apply chars_app in Hin as [Hin|Hin]; [now apply title_no_newline|].
  cbn in Hin. destruct Hin as [<-|[]]. discriminate.
Qed.

Lemma tag_concat (line : string) (rest : list string) :
  String.concat "" (tag line :: rest)
  = ((title ++ String tab "") ++ (line ++ String.concat "" rest))%string.
Proof.
  rewrite concat_cons. unfold tag. now rewrite !append_assoc'.
Qed.

Lemma tag_prefix (line : string) :
  tag line = ((title ++ String tab "") ++ line)%string.
Proof. unfold tag. now rewrite append_assoc'. Qed.

(** The tagged lines, written one after the other, fall apart into the
    same lines again. *)
Lemma keepends_tagged (u : string) :
  keepends (String.concat "" (map tag (keepends u))) = map tag (keepends u)
  /\ (forall h r,
         keepends u = h :: r ->
         keepends (h ++ String.concat "" (map tag r)) = h :: map tag r).
Proof.
  induction u as [|c t [IH1 IH2]].
  - split; [reflexivity | discriminate].
  - cbn [keepends]. destruct (Ascii.eqb c newline) eqn:Ec.
    + assert (Hhead : keepends (String c "" ++ String.concat "" (map tag (keepends t)))
                      = String c "" :: map tag (keepends t))
        by (cbn [append keepends]; now rewrite Ec, IH1).
      split.
      * cbn [map]. rewrite tag_concat.
        rewrite (keepends_prefix _ _ _ _ title_tab_no_newline Hhead).
        now rewrite <- tag_prefix.
      * intros h r [= <- <-]. exact Hhead.
    + destruct (keepends t) as [|h r] eqn:Hr.
      * assert (Hhead : keepends (String c "" ++ String.concat "" [])
                        = [String c ""])
          by (cbn [String.concat append keepends]; now rewrite Ec).
        split.
        -- cbn [map]. rewrite tag_concat.
           rewrite (keepends_prefix _ _ _ _ title_tab_no_newline Hhead).
           now rewrite <- tag_prefix.
        -- intros h r [= <- <-]. exact Hhead.
      * assert (Hhead : keepends (String c h ++ String.concat "" (map tag r))
                        = String c h :: map tag r)
          by (cbn [append keepends]; now rewrite Ec, (IH2 h r eq_refl)).
        split.
        -- cbn [map]. rewrite tag_concat.
           rewrite (keepends_prefix _ _ _ _ title_tab_no_newline Hhead).
           now rewrite <- tag_prefix.
        -- intros h' r' [= <- <-]. exact Hhead.
Qed.

Lemma tagged_chars (lines : list string) (c : ascii) :
  In c (list_ascii_of_string (String.concat "" (map tag lines))) ->
  In c (list_ascii_of_string (title ++ String tab ""))
  \/ exists line, In line lines /\ In c (list_ascii_of_string line).
Proof.
  induction lines as [|line lines IH]; [intros []|].
  cbn [map]. rewrite tag_concat. intros Hin.
  apply chars_app in Hin as [Hin|Hin]; [now left|].
  apply chars_app in Hin as [Hin|Hin].
  - right. exists line. split; [now left | exact Hin].
  - destruct (IH Hin) as [H|(l & Hl & Hc)]; [now left|].
    right. exists l. split; [now right | exact Hc].
Qed.

End Tagging.

(** X12. The report that [run_kraken] writes back, read again line by
    line, gives the lines of the classifier's report in their order,
    each with the title and a tab in front: no line is lost, joined or
    split, for a title without line end. *)
Theorem tagged_report_lines :
  forall (title text : string),
    (forall c, In c (list_ascii_of_string title) -> c <> newline) ->
    (forall c, In c (list_ascii_of_string title) -> c <> carriage_return) ->
    readlines (tagged_report title text)
    = map (fun line => (title ++ String tab "" ++ line)%string) (readlines text).
Proof.
  intros title text Hnl Hcr. unfold tagged_report, readlines.
  rewrite universal_newlines_id.
  - apply (keepends_tagged title Hnl).
  - intros c Hin. apply (tagged_chars title) in Hin as [Hin|(line & Hline & Hin)].
    + apply chars_app in Hin as [Hin|Hin]; [now apply Hcr|].
      cbn in Hin. destruct Hin as [<-|[]]. discriminate.
    + apply (proj1 (universal_newlines_pair text)).
      eapply keepends_chars; eassumption.
Qed.

Lemma tagged_report_lines_witness :
  readlines
    (tagged_report "barcode01"
       ("99.1" ++ String tab ("U" ++ String carriage_return (String newline
          ("0.9" ++ String tab ("V" ++ String newline ""))))))
  = map (fun line => ("barcode01" ++ String tab "" ++ line)%string)
        (readlines
           ("99.1" ++ String tab ("U" ++ String carriage_return (String newline
              ("0.9" ++ String tab ("V" ++ String newline "")))))).
Proof.
  apply (tagged_report_lines "barcode01").
  - intros c Hin. cbn in Hin.
    repeat (destruct Hin as [<-|Hin]; [discriminate|]). now elim Hin.
  - intros c Hin. cbn in Hin.
    repeat (destruct Hin as [<-|Hin]; [discriminate|]). now elim Hin.
Defined.

End ReportFacts.

(* ================================================================== *)
(** * Further properties of the runner, the summary report and [main] *)

Module RunnerMore.
Import Py.
Import FS.
Import Pandas.
Import NanoporeMet.
Import FSFacts.
Import RunnerFacts.

Lemma bind_ok {A B : Type} (m : io A) (k : A -> io B) (d d' : dir) (b : B)
      (ev : list event) :
  FS.bind m k d = (Ok b, d', ev) ->
  exists a d1 ev1 ev2,
    m d = (Ok a, d1, ev1) /\ k a d1 = (Ok b, d', ev2) /\ ev = ev1 ++ ev2.
Proof.
  unfold FS.bind. destruct (m d) as [[[a|e msg|e] d1] ev1]; try discriminate.
  destruct (k a d1) as [[r d2] ev2] eqn:Hk. intros [= -> -> <-].
  now exists a, d1, ev1, ev2.
Qed.

Lemma lookup_unlink_same (name : string) (d : dir) :
  lookup name (unlink name d) = None.
Proof.
  unfold unlink. induction d as [|[n v] d IH]; [reflexivity|].
  cbn [filter fst]. destruct (String.eqb n name) eqn:E; cbn [negb]; [exact IH|].
  cbn [lookup]. now rewrite E.
Qed.

Lemma lookup_unlink_other (name other : string) (d : dir) :
  name <> other -> lookup other (unlink name d) = lookup other d.
Proof.
  intros Hne. unfold unlink. induction d as [|[n v] d IH]; [reflexivity|].
  cbn [filter fst lookup]. destruct (String.eqb n name) eqn:E; cbn [negb].
  - apply String.eqb_eq in E. subst n.
    apply String.eqb_neq in Hne. now rewrite Hne.
  - cbn [lookup]. now rewrite IH.
Qed.

Lemma endswith_refl (s : string) : endswith s s = true.
Proof. destruct s; cbn [endswith]; now rewrite String.eqb_refl. Qed.

Lemma endswith_append (a b : string) : endswith (a ++ b) b = true.
Proof.
  induction a as [|c a IH]; [apply endswith_refl|].
  cbn [append endswith]. rewrite IH. apply orb_true_r.
Qed.

Lemma report_name_differs (title : string) :
  "concatenated.fastq" <> (title ++ ".kreport.txt")%string.
Proof.
  intros H.
  assert (E : endswith (title ++ ".kreport.txt") ".txt" = true).
  { replace (title ++ ".kreport.txt")%string
      with ((title ++ ".kreport") ++ ".txt")%string
      by (now rewrite TableTextFacts.append_assoc').
    apply endswith_append. }
  rewrite <- H in E. discriminate.
Qed.

Section RunnerMoreSection.

Variable parse_summary : string -> outcome SummaryFrame.
Variable render_pdf : list histogram -> string.
Variable kraken2 : kraken_command -> dir -> dir.

(** X13. When [run_kraken] finds read files and returns, the
    combined-read file is gone from the sample directory and the report
    file holds the classifier's report with the title put in front of
    every line. *)
Theorem run_kraken_cleans_up :
  forall (title db : string) (d d' : dir) (ev : list event),
    filter (fun file => endswith file ".fastq.gz") (listdir d) <> [] ->
    run_kraken kraken2 title db d = (Ok tt, d', ev) ->
    path_exists "concatenated.fastq" d' = false
    /\ exists text,
        lookup (title ++ ".kreport.txt")%string
               (kraken2 {| kraken_db := db;
                           kraken_output := "concatenated.kraken";
                           kraken_report := (title ++ ".kreport.txt")%string;
                           kraken_input := "concatenated.fastq" |}
                        (files (run_kraken_concatenate "concatenated.fastq"
                                  (filter (fun file => endswith file ".fastq.gz")
                                          (listdir d)) d)))
        = Some (File text)
        /\ lookup (title ++ ".kreport.txt")%string d'
           = Some (File (tagged_report title text)).
Proof.
  intros title db d d' ev Hreads Hrun. unfold run_kraken in Hrun.
  destruct (filter _ (listdir d)) as [|f l] eqn:Hf; [now elim Hreads|].
  apply bind_ok in Hrun as ([] & d1 & ev1 & ev1' & Hcat & Hrun & _).
  apply bind_ok in Hrun as ([] & d2 & ev2 & ev2' & Htool & Hrun & _).
  apply bind_ok in Hrun as (text & d3 & ev3 & ev3' & Hread & Hrun & _).
  apply bind_ok in Hrun as ([] & d4 & ev4 & ev4' & Hopen & Hrun & _).
  apply bind_ok in Hrun as ([] & d5 & ev5 & ev5' & Hwrite & Hrm & _).
  unfold run_tool in Htool. injection Htool as <- _.
  unfold read in Hread. cbn [resolve] in Hread.
  destruct (lookup (title ++ ".kreport.txt") (kraken2 _ d1)) as [[c|sub]|] eqn:Hrep;
    try discriminate.
  injection Hread as -> <- _.
  unfold open_wb in Hopen. rewrite Hrep in Hopen. injection Hopen as <- _.
  unfold write in Hwrite. rewrite lookup_put_same in Hwrite.
  injection Hwrite as <- _.
  unfold remove in Hrm.
  destruct (lookup "concatenated.fastq" _) as [[c|sub]|]; try discriminate.
  injection Hrm as <- _.
  split.
  - unfold path_exists. now rewrite lookup_unlink_same.
  - exists text. rewrite Hcat. cbn [files fst snd]. split; [exact Hrep|].
    rewrite (lookup_unlink_other _ _ _ (report_name_differs title)).
    now rewrite lookup_put_same.
Qed.

(** The call in a directory without report, with a table that can be
    read: the report is written with the pages drawn, and the call ends
    as the drawing ended. *)
Lemma generate_with_table (d : dir) (file content : string) (more : list string)
      (data : SummaryFrame) :
  path_exists "sequencing_summary.pdf" d = false ->
  glob_affix "sequencing_summary_" ".txt" d = file :: more ->
  lookup file d = Some (File content) ->
  parse_summary content = Ok data ->
  generate_sequencing_summary_pdf parse_summary render_pdf d
  = let '(pages, r) :=
      collect_pages
        [ plot_histogram data "mean_qscore_template"
            "Mean Q score (all reads)" "Mean Q score" "Frequency" false;
          plot_histogram (filter passes_filtering data) "mean_qscore_template"
            "Mean Q score (quality-filtered reads)" "Mean Q score"
            "Frequency" false;
          plot_histogram data "sequence_length_template"
            "Sequence length (all reads)" "Sequence length" "Frequency" true;
          plot_histogram (filter passes_filtering data) "sequence_length_template"
            "Sequence length (quality-filtered reads)" "Sequence length"
            "Frequency" true ] [] in
    let written := put "sequencing_summary.pdf" (File (render_pdf pages)) d in
    let events := [Create "sequencing_summary.pdf";
                   Write "sequencing_summary.pdf" (render_pdf pages)] in
    match r with
    | Ok _ => (Ok "sequencing_summary.pdf", written,
               events ++ [Print "Plots saved in sequencing_summary.pdf"])
    | Raised e msg => (Raised e msg, written, events)
    | Failed e => (Failed e, written, events)
    end.
Proof.
  intros Hnew Hglob Hfile Hparse.
  pose proof (AggregatorMore.lookup_absent _ _ Hnew) as Hout.
  unfold generate_sequencing_summary_pdf.
  change (FS.bind (exists_ "sequencing_summary.pdf") ?k d)
    with (let '(r, d2, ev2) := k (path_exists "sequencing_summary.pdf" d) d in
          (r, d2, [] ++ ev2)).
  rewrite Hnew, Hglob.
  unfold FS.bind at 1, read. cbn [resolve]. rewrite Hfile.
  unfold FS.bind at 1, lift. rewrite Hparse.
  unfold FS.bind at 1, save_pages.
  destruct (collect_pages _ []) as [pages r].
  unfold FS.bind at 1, open_wb. rewrite Hout.
  unfold FS.bind at 1, write. rewrite lookup_put_same, AggregatorMore.put_put.
  cbn [append]. unfold lift.
  destruct r as [[]|e msg|e]; reflexivity.
Qed.

Lemma median_some (v : Q) (values : list Q) :
  exists m, median (v :: values) = Some m.
Proof.
  unfold median.
  destruct (Nat.even (List.length (sort_values (v :: values)))); eexists; reflexivity.
Qed.

Lemma quality_plot_drawn (data : SummaryFrame) (title xlabel ylabel : string)
      (log_scale : bool) :
  exists h,
    plot_histogram data "mean_qscore_template" title xlabel ylabel log_scale = Ok h
    /\ hist_title h = title /\ hist_log h = log_scale
    /\ hist_values h = map mean_qscore_template data.
Proof.
  unfold plot_histogram, column. cbn [String.eqb Ascii.eqb Bool.eqb Py.bind].
  eexists. split; [reflexivity|]. now repeat split.
Qed.

Lemma length_plot_drawn (data : SummaryFrame) (title xlabel ylabel : string)
      (log_scale : bool) :
  data <> [] ->
  exists h,
    plot_histogram data "sequence_length_template" title xlabel ylabel log_scale = Ok h
    /\ hist_title h = title /\ hist_log h = log_scale
    /\ hist_values h = map (fun r => inject_Z (sequence_length_template r)) data.
Proof.
  intros Hne. destruct data as [|r data]; [now elim Hne|].
  unfold plot_histogram, column. cbn [String.eqb Ascii.eqb Bool.eqb Py.bind map].
  destruct (median_some (inject_Z (sequence_length_template r))
              (map (fun r0 => inject_Z (sequence_length_template r0)) data))
    as [m ->].
  cbn [round_int Py.bind]. eexists. split; [reflexivity|]. now repeat split.
Qed.

(** X14. With no report yet, a summary table that can be read and at
    least one read that passes filtering, the call returns after writing
    a report of four pages: quality of all reads, quality of the
    filtered reads, length of all reads, length of the filtered reads,
    the last two on a logarithmic scale. *)
Theorem summary_report_four_pages :
  forall (d : dir) (file content : string) (more : list string)
         (data : SummaryFrame),
    path_exists "sequencing_summary.pdf" d = false ->
    glob_affix "sequencing_summary_" ".txt" d = file :: more ->
    lookup file d = Some (File content) ->
    parse_summary content = Ok data ->
    filter passes_filtering data <> [] ->
    exists pages,
      map hist_title pages
      = ["Mean Q score (all reads)"; "Mean Q score (quality-filtered reads)";
         "Sequence length (all reads)"; "Sequence length (quality-filtered reads)"]
      /\ map hist_log pages = [false; false; true; true]
      /\ map hist_values pages
         = [map mean_qscore_template data;
            map mean_qscore_template (filter passes_filtering data);
            map (fun r => inject_Z (sequence_length_template r)) data;
            map (fun r => inject_Z (sequence_length_template r))
                (filter passes_filtering data)]
      /\ generate_sequencing_summary_pdf parse_summary render_pdf d
         = (Ok "sequencing_summary.pdf",
            put "sequencing_summary.pdf" (File (render_pdf pages)) d,
            [Create "sequencing_summary.pdf";
             Write "sequencing_summary.pdf" (render_pdf pages);
             Print "Plots saved in sequencing_summary.pdf"]).
Proof.
  intros d file content more data Hnew Hglob Hfile Hparse Hpass.
  assert (Hdata : data <> []) by (intros ->; now apply Hpass).
  rewrite (generate_with_table d file content more data Hnew Hglob Hfile Hparse).
  destruct (quality_plot_drawn data "Mean Q score (all reads)" "Mean Q score"
              "Frequency" false) as (h1 & -> & T1 & L1 & V1).
  destruct (quality_plot_drawn (filter passes_filtering data)
              "Mean Q score (quality-filtered reads)" "Mean Q score"
              "Frequency" false) as (h2 & -> & T2 & L2 & V2).
  destruct (length_plot_drawn data "Sequence length (all reads)" "Sequence length"
              "Frequency" true Hdata) as (h3 & -> & T3 & L3 & V3).
  destruct (length_plot_drawn (filter passes_filtering data)
              "Sequence length (quality-filtered reads)" "Sequence length"
              "Frequency" true Hpass) as (h4 & -> & T4 & L4 & V4).
  exists [h1; h2; h3; h4]. cbn [map collect_pages app].
  rewrite T1, T2, T3, T4, L1, L2, L3, L4, V1, V2, V3, V4. now repeat split.
Qed.

(** X15. When no read of a table that has reads passes filtering, the
    fourth plot raises a [ValueError] (the median of no value is not a
    number); the report is left behind with the first three pages. *)
Theorem summary_report_nothing_passes :
  forall (d : dir) (file content : string) (more : list string)
         (data : SummaryFrame),
    path_exists "sequencing_summary.pdf" d = false ->
    glob_affix "sequencing_summary_" ".txt" d = file :: more ->
    lookup file d = Some (File content) ->
    parse_summary content = Ok data ->
    data <> [] ->
    filter passes_filtering data = [] ->
    exists pages,
      map hist_title pages
      = ["Mean Q score (all reads)"; "Mean Q score (quality-filtered reads)";
         "Sequence length (all reads)"]
      /\ generate_sequencing_summary_pdf parse_summary render_pdf d
         = (Failed ValueError,
            put "sequencing_summary.pdf" (File (render_pdf pages)) d,
            [Create "sequencing_summary.pdf";
             Write "sequencing_summary.pdf" (render_pdf pages)]).
Proof.
  intros d file content more data Hnew Hglob Hfile Hparse Hdata Hnone.
  rewrite (generate_with_table d file content more data Hnew Hglob Hfile Hparse).
  rewrite Hnone.
  destruct (quality_plot_drawn data "Mean Q score (all reads)" "Mean Q score"
              "Frequency" false) as (h1 & -> & T1 & _).
  destruct (quality_plot_drawn [] "Mean Q score (quality-filtered reads)"
              "Mean Q score" "Frequency" false) as (h2 & -> & T2 & _).
  destruct (length_plot_drawn data "Sequence length (all reads)" "Sequence length"
              "Frequency" true Hdata) as (h3 & -> & T3 & _).
  exists [h1; h2; h3]. cbn [map]. rewrite T1, T2, T3. split; reflexivity.
Qed.

(** X16. Once a call has found a summary table and read it, the report
    is there, whether the plots were all drawn or one of them raised:
    the next call only says that the report has already been created
    and changes nothing. *)
Theorem summary_report_not_regenerated :
  forall (d : dir) (file content : string) (more : list string)
         (data : SummaryFrame),
    path_exists "sequencing_summary.pdf" d = false ->
    glob_affix "sequencing_summary_" ".txt" d = file :: more ->
    lookup file d = Some (File content) ->
    parse_summary content = Ok data ->
    let first := generate_sequencing_summary_pdf parse_summary render_pdf d in
    generate_sequencing_summary_pdf parse_summary render_pdf (files first)
    = (Ok "sequencing_summary.pdf", files first,
       [Print "The sequencing_summary.pdf file has already been created."]).
Proof.
  intros d file content more data Hnew Hglob Hfile Hparse. cbv zeta.
  rewrite (generate_with_table d file content more data Hnew Hglob Hfile Hparse).
  destruct (collect_pages _ []) as [pages r]. cbv zeta.
  assert (Hthere : forall content0,
    generate_sequencing_summary_pdf parse_summary render_pdf
      (put "sequencing_summary.pdf" (File content0) d)
    = (Ok "sequencing_summary.pdf", put "sequencing_summary.pdf" (File content0) d,
       [Print "The sequencing_summary.pdf file has already been created."])).
  { intros content0. unfold generate_sequencing_summary_pdf, FS.bind, exists_, path_exists.
    now rewrite lookup_put_same. }
  destruct r as [[]|e msg|e]; cbn [files fst snd]; apply Hthere.
Qed.

(** X17. Without a [fastq_pass] directory [main] stops, once the summary
    step has returned, with a [FileNotFoundError]; with a file of that
    name, with a [NotADirectoryError]. *)
Theorem main_needs_fastq_pass :
  forall (answer : string) (d : dir),
    is_ok (result (generate_sequencing_summary_pdf parse_summary render_pdf d)) = true ->
    (lookup "fastq_pass" d = None ->
     result (main parse_summary render_pdf kraken2 answer d) = Failed FileNotFoundError)
    /\ (forall content,
           lookup "fastq_pass" d = Some (File content) ->
           result (main parse_summary render_pdf kraken2 answer d)
           = Failed NotADirectoryError).
Proof.
  intros answer d Hgen.
  pose proof (generate_preserves parse_summary render_pdf "fastq_pass"
                ltac:(discriminate) d) as Hkeep.
  split; [intros Hl | intros content Hl]; rewrite Hl in Hkeep;
    unfold main, FS.bind at 1;
    destruct (generate_sequencing_summary_pdf parse_summary render_pdf d)
      as [[[p|e msg|e] d1] ev1]; try discriminate;
    cbn [files fst snd] in Hkeep;
    destruct (existsb (String.eqb answer) ["yes"; "y"]);
    unfold FS.bind at 1, within; rewrite Hkeep; reflexivity.
Qed.


Lemma preserves_within {A : Type} (name sub : string) (m : io A) :
  sub <> name -> preserves name (within sub m).
Proof.
  intros Hne d. unfold within.
  destruct (lookup sub d) as [[c|es]|]; try reflexivity.
  destruct (m es) as [[r es'] ev]. cbn [files fst snd].
  now apply lookup_put_other.
Qed.

(** The loop of [main] changes only the entries it is given. *)
Lemma collect_kreports_preserves (db : string) (subdirs : list string) :
  forall (kreport_dfs : list DataFrame) (name : string),
    ~ In name subdirs ->
    preserves name (collect_kreports kraken2 db subdirs kreport_dfs).
Proof.
  induction subdirs as [|subdir rest IH]; intros kreport_dfs name Hout.
  - now apply preserves_pure.
  - assert (Hne : subdir <> name) by (intros ->; apply Hout; now left).
    assert (Hrest : ~ In name rest) by (intros H; apply Hout; now right).
    intros d. cbn [collect_kreports].
    assert (Hskip : lookup name
                      (files ((print ("Skipping empty subdirectory: " ++ subdir)%string ;;;
                               collect_kreports kraken2 db rest kreport_dfs) d))
                    = lookup name d).
    { apply (preserves_bind name); [now apply preserves_pure|].
      intros _. now apply IH. }
    destruct (lookup subdir d) as [[c|[|e0 sub]]|]; try exact Hskip.
    apply (preserves_bind name); [now apply preserves_within|].
    intros _. apply preserves_bind; [apply preserves_read|].
    intros text. apply preserves_bind; [now apply preserves_pure|].
    intros df. now apply IH.
Qed.

(** X20. On success the loop of [main] has added one table for each
    entry of [fastq_pass] that is a directory with entries and none for
    the other entries, in the order of the listing: the i-th table added
    is the one read from the report [<name>/<name>.kreport.txt] of the
    i-th such entry, as that report stands when the loop ends. *)
Theorem collect_kreports_one_table_each :
  forall (db : string) (subdirs : list string) (kreport_dfs : list DataFrame)
         (d d' : dir) (collected : list DataFrame) (ev : list event),
    NoDup subdirs ->
    collect_kreports kraken2 db subdirs kreport_dfs d = (Ok collected, d', ev) ->
    exists added,
      collected = kreport_dfs ++ added
      /\ Forall2 (fun name kreport_df =>
                    exists sub text,
                      lookup name d' = Some (Dir sub)
                      /\ lookup (name ++ ".kreport.txt")%string sub = Some (File text)
                      /\ read_csv text = Ok kreport_df)
                 (filter (holds_entries d) subdirs) added.
Proof.
  intros db subdirs. induction subdirs as [|name rest IH];
    intros kreport_dfs d d' collected ev Hnodup Hrun.
  - cbn in Hrun. injection Hrun as <- _ _. exists []. rewrite app_nil_r.
    split; [reflexivity | constructor].
  - pose proof (NoDup_cons_iff name rest) as [Hnd _].
    destruct (Hnd Hnodup) as [Hfresh Hrest]. clear Hnd.
    cbn [collect_kreports] in Hrun. cbn [filter]. unfold holds_entries at 1.
    destruct (lookup name d) as [[c|[|e0 sub]]|] eqn:Hl.
    + apply bind_ok in Hrun as ([] & d1 & ev1 & ev2 & Hp & Hrun & _).
      injection Hp as <- _. now apply IH with (ev := ev2).
    + apply bind_ok in Hrun as ([] & d1 & ev1 & ev2 & Hp & Hrun & _).
      injection Hp as <- _. now apply IH with (ev := ev2).
    + apply bind_ok in Hrun as ([] & d1 & ev1 & ev2 & Hw & Hrun & _).
      apply bind_ok in Hrun as (text & d2 & ev3 & ev4 & Hr & Hrun & _).
      apply bind_ok in Hrun as (df & d3 & ev5 & ev6 & Hc & Hrun & _).
      unfold within in Hw. rewrite Hl in Hw.
      destruct (run_kraken kraken2 name db (e0 :: sub)) as [[r sub'] ev0].
      injection Hw as _ <- _.
      unfold read in Hr. cbn [resolve] in Hr. rewrite lookup_put_same in Hr.
      destruct (lookup (name ++ ".kreport.txt") sub') as [[content|s0]|] eqn:Hrep;
        try discriminate.
      injection Hr as -> <- _.
      unfold lift in Hc. injection Hc as Hc <- _.
      pose proof (collect_kreports_preserves db rest (kreport_dfs ++ [df]) name
                    Hfresh (put name (Dir sub') d)) as Hkeep.
      rewrite Hrun in Hkeep. cbn [files fst snd] in Hkeep.
      rewrite lookup_put_same in Hkeep.
      destruct (IH _ _ _ _ _ Hrest Hrun) as (added & -> & Hall).
      exists (df :: added). rewrite <- app_assoc. split; [reflexivity|].
      constructor.
      * exists sub', text. now repeat split.
      * replace (filter (holds_entries d) rest)
          with (filter (holds_entries (put name (Dir sub') d)) rest); [exact Hall|].
        apply filter_ext_in. intros other Hin. unfold holds_entries.
        rewrite lookup_put_other; [reflexivity|]. intros ->. now apply Hfresh.
    + apply bind_ok in Hrun as ([] & d1 & ev1 & ev2 & Hp & Hrun & _).
      injection Hp as <- _. now apply IH with (ev := ev2).
Qed.

End RunnerMoreSection.

Lemma run_kraken_cleans_up_witness :
  let d := [("reads_0.fastq.gz", File "R")] in
  let r := run_kraken toy_classifier "barcode01" "db" d in
  path_exists "concatenated.fastq" (files r) = false
  /\ exists text,
      lookup ("barcode01" ++ ".kreport.txt")%string
             (toy_classifier
                {| kraken_db := "db";
                   kraken_output := "concatenated.kraken";
                   kraken_report := ("barcode01" ++ ".kreport.txt")%string;
                   kraken_input := "concatenated.fastq" |}
                (files (run_kraken_concatenate "concatenated.fastq"
                          (filter (fun file => endswith file ".fastq.gz") (listdir d)) d)))
      = Some (File text)
      /\ lookup ("barcode01" ++ ".kreport.txt")%string (files r)
         = Some (File (tagged_report "barcode01" text)).
Proof.
  cbv zeta.
  apply (run_kraken_cleans_up toy_classifier "barcode01" "db"
           [("reads_0.fastq.gz", File "R")]
           (files (run_kraken toy_classifier "barcode01" "db"
                     [("reads_0.fastq.gz", File "R")]))
           (events (run_kraken toy_classifier "barcode01" "db"
                      [("reads_0.fastq.gz", File "R")]))).
  - discriminate.
  - reflexivity.
Defined.

Lemma summary_report_four_pages_witness :
  let d := [("sequencing_summary_FAQ1.txt", File "table")] in
  exists pages,
    map hist_title pages
    = ["Mean Q score (all reads)"; "Mean Q score (quality-filtered reads)";
       "Sequence length (all reads)"; "Sequence length (quality-filtered reads)"]
    /\ map hist_log pages = [false; false; true; true]
    /\ map hist_values pages
       = [map mean_qscore_template (toy_read true);
          map mean_qscore_template (filter passes_filtering (toy_read true));
          map (fun r => inject_Z (sequence_length_template r)) (toy_read true);
          map (fun r => inject_Z (sequence_length_template r))
              (filter passes_filtering (toy_read true))]
    /\ generate_sequencing_summary_pdf (fun _ => Ok (toy_read true)) toy_render d
       = (Ok "sequencing_summary.pdf",
          put "sequencing_summary.pdf" (File (toy_render pages)) d,
          [Create "sequencing_summary.pdf";
           Write "sequencing_summary.pdf" (toy_render pages);
           Print "Plots saved in sequencing_summary.pdf"]).
Proof.
  cbv zeta.
  apply (summary_report_four_pages (fun _ => Ok (toy_read true)) toy_render
           [("sequencing_summary_FAQ1.txt", File "table")]
           "sequencing_summary_FAQ1.txt" "table" [] (toy_read true)).
  - reflexivity.
  - reflexivity.
  - reflexivity.
  - reflexivity.
  - discriminate.
Defined.

Lemma summary_report_nothing_passes_witness :
  let d := [("sequencing_summary_FAQ1.txt", File "table")] in
  exists pages,
    map hist_title pages
    = ["Mean Q score (all reads)"; "Mean Q score (quality-filtered reads)";
       "Sequence length (all reads)"]
    /\ generate_sequencing_summary_pdf (fun _ => Ok (toy_read false)) toy_render d
       = (Failed ValueError,
          put "sequencing_summary.pdf" (File (toy_render pages)) d,
          [Create "sequencing_summary.pdf";
           Write "sequencing_summary.pdf" (toy_render pages)]).
Proof.
  cbv zeta.
  apply (summary_report_nothing_passes (fun _ => Ok (toy_read false)) toy_render
           [("sequencing_summary_FAQ1.txt", File "table")]
           "sequencing_summary_FAQ1.txt" "table" [] (toy_read false)).
  - reflexivity.
  - reflexivity.
  - reflexivity.
  - reflexivity.
  - discriminate.
  - reflexivity.
Defined.

Lemma summary_report_not_regenerated_witness :
  let d := [("sequencing_summary_FAQ1.txt", File "table")] in
  let first :=
    generate_sequencing_summary_pdf (fun _ => Ok (toy_read false)) toy_render d in
  generate_sequencing_summary_pdf (fun _ => Ok (toy_read false)) toy_render
    (files first)
  = (Ok "sequencing_summary.pdf", files first,
     [Print "The sequencing_summary.pdf file has already been created."]).
Proof.
  cbv zeta.
  apply (summary_report_not_regenerated (fun _ => Ok (toy_read false)) toy_render
           [("sequencing_summary_FAQ1.txt", File "table")]
           "sequencing_summary_FAQ1.txt" "table" [] (toy_read false)).
  - reflexivity.
  - reflexivity.
  - reflexivity.
  - reflexivity.
Defined.

Lemma main_needs_fastq_pass_witness :
  result (main (fun _ => Ok (toy_read true)) toy_render toy_classifier "y"
               [("notes.txt", File "n")])
  = Failed FileNotFoundError
  /\ result (main (fun _ => Ok (toy_read true)) toy_render toy_classifier "y"
                  [("fastq_pass", File "n")])
     = Failed NotADirectoryError.
Proof.
  split.
  - apply (proj1 (main_needs_fastq_pass (fun _ => Ok (toy_read true)) toy_render
                    toy_classifier "y" [("notes.txt", File "n")] eq_refl)).
    reflexivity.
  - apply (proj2 (main_needs_fastq_pass (fun _ => Ok (toy_read true)) toy_render
                    toy_classifier "y" [("fastq_pass", File "n")] eq_refl) "n").
    reflexivity.
Defined.

Lemma collect_kreports_one_table_each_witness :
  let d := [("barcode01", Dir [("reads_0.fastq.gz", File "R")]);
            ("barcode02", Dir []);
            ("notes.txt", File "n")] in
  let r := collect_kreports toy_classifier "db" (listdir d) [] d in
  exists added,
    (match result r with Ok collected => collected | _ => [] end) = [] ++ added
    /\ Forall2 (fun name kreport_df =>
                  exists sub text,
                    lookup name (files r) = Some (Dir sub)
                    /\ lookup (name ++ ".kreport.txt")%string sub = Some (File text)
                    /\ read_csv text = Ok kreport_df)
               (filter (holds_entries d) (listdir d)) added.
Proof.
  cbv zeta.
  apply (collect_kreports_one_table_each toy_classifier "db"
           ["barcode01"; "barcode02"; "notes.txt"] []
           [("barcode01", Dir [("reads_0.fastq.gz", File "R")]);
            ("barcode02", Dir []);
            ("notes.txt", File "n")]
           (files (collect_kreports toy_classifier "db"
                     ["barcode01"; "barcode02"; "notes.txt"] []
                     [("barcode01", Dir [("reads_0.fastq.gz", File "R")]);
                      ("barcode02", Dir []);
                      ("notes.txt", File "n")]))
           _
           (events (collect_kreports toy_classifier "db"
                      ["barcode01"; "barcode02"; "notes.txt"] []
                      [("barcode01", Dir [("reads_0.fastq.gz", File "R")]);
                       ("barcode02", Dir []);
                       ("notes.txt", File "n")]))).
  - repeat constructor; cbn; intuition discriminate.
  - reflexivity.
Defined.


End RunnerMore.

